(** * cleanup_v1_calendar.py: a shallow embedding and its specification

    The script [v2/scripts/migration/cleanup_v1_calendar.py] walks over the
    users that had calendar sync enabled, recovers their Google credentials
    and deletes the calendar events whose summary starts with one of the
    PERM Tracker labels.

    Everything outside the script (environment variables, imported
    libraries, the Supabase table, the Google provider, the clock) is
    gathered in one record of oracles, [World].  Python exceptions are
    values of type [exn]; a call that may raise returns a [result].  The
    object [self] and a ghost trace of the state-changing calls issued to
    the outside are threaded through a state-and-exception monad [M]. *)

From stdpp Require Import base option list gmap strings.
From Stdlib Require Import Ascii ZArith Lia.

Local Open Scope string_scope.

(** ** Python values, exceptions and results *)

(** Only subclasses of [Exception] are modelled ([KeyboardInterrupt] and
    [SystemExit] are not): [ImportError] and [RefreshError] are the two
    classes the script names in an [except] clause, [AttributeError] and
    [TypeError] are raised by the interpreter on ill-typed values, and
    [OtherError] stands for any other subclass. *)
Inductive exn_class :=
  | ImportError
  | RefreshError
  | AttributeError
  | TypeError
  | OtherError.

Record exn := Exn { exn_cls : exn_class; exn_str : string }.

Inductive result (A : Type) :=
  | Ok (a : A)
  | Raise (e : exn).
Arguments Ok {A} a.
Arguments Raise {A} e.

Definition is_ok {A} (r : result A) : bool :=
  match r with Ok _ => true | Raise _ => false end.

Definition rbind {A B} (r : result A) (k : A -> result B) : result B :=
  match r with Ok a => k a | Raise e => Raise e end.

(** A dynamically typed value as it comes out of a JSON row.  [VOther]
    is any value that is neither [None], a [str] nor a [bool]; it carries
    its truth value and its [str()] rendering. *)
Inductive value :=
  | VNone
  | VStr (s : string)
  | VBool (b : bool)
  | VOther (truth : bool) (rendering : string).

Definition str_truthy (s : string) : bool :=
  match s with EmptyString => false | String _ _ => true end.

Definition truthy (v : value) : bool :=
  match v with
  | VNone => false
  | VStr s => str_truthy s
  | VBool b => b
  | VOther t _ => t
  end.

Definition opt_truthy (o : option string) : bool :=
  match o with None => false | Some s => str_truthy s end.

(** [str(v)], as an f-string renders it. *)
Definition py_str (v : value) : string :=
  match v with
  | VNone => "None"
  | VStr s => s
  | VBool true => "True"
  | VBool false => "False"
  | VOther _ r => r
  end.

(** [d.get(k)] and [d.get(k, dflt)]. *)
Definition dict_get (d : gmap string value) (k : string) : value :=
  default VNone (d !! k).
Definition dict_get_or (d : gmap string value) (k : string) (dflt : value) : value :=
  default dflt (d !! k).

(** [s.startswith(p)] *)
Fixpoint startswith (s p : string) {struct p} : bool :=
  match p with
  | EmptyString => true
  | String c p' =>
      match s with
      | EmptyString => false
      | String d s' => if Ascii.eqb c d then startswith s' p' else false
      end
  end.

(** [s.replace("Z", "+00:00")] *)
Fixpoint replace_Z (s : string) : string :=
  match s with
  | EmptyString => EmptyString
  | String c s' =>
      if Ascii.eqb c "Z"%char then "+00:00" +:+ replace_Z s'
      else String c (replace_Z s')
  end.

(** ** Dates *)

(** A [datetime]: the wall-clock reading in microseconds and the UTC
    offset of its [tzinfo] ([None] for a naive datetime). *)
Record datetime := { wall : Z; tzinfo : option Z }.

Definition timedelta_days (d : Z) : Z := (d * 86400000000)%Z.

(** [a >= b] on datetimes; mixing naive and aware raises [TypeError]. *)
Definition datetime_ge (a b : datetime) : result bool :=
  match tzinfo a, tzinfo b with
  | None, None => Ok (wall b <=? wall a)%Z
  | Some oa, Some ob => Ok (wall b - ob <=? wall a - oa)%Z
  | _, _ => Raise (Exn TypeError "can't compare offset-naive and offset-aware datetimes")
  end.

(** ** The calendar provider *)

(** The [start] object of an event and the event resource itself.  The
    script reads [event['id']] unguarded and every other key with [.get]:
    the identity is always there, the rest may be missing. *)
Record start_dict := { date : option string; dateTime : option string }.
Record raw_event := {
  ev_id : string;
  ev_summary : option string;
  ev_start : option start_dict
}.

(** The answers of [events().list(...).execute()] to the successive
    requests for one search text: a request raises, or it returns a last
    page (its [nextPageToken] is missing), or a page with a
    [nextPageToken] and, behind it, the answer to the request that sends
    this token.  [items] may be missing from a page.  The provider's
    pagination is finite. *)
Inductive pages :=
  | PageRaise (e : exn)
  | PageLast (items : option (list raw_event))
  | PageMore (items : option (list raw_event)) (nextPageToken : string)
             (next : pages).

Record service := {
  events_list : string -> Z -> Z -> pages;      (* q, timeMin, timeMax *)
  events_delete : string -> result unit         (* eventId *)
}.

(** ** Credentials *)

Inductive scopes_t :=
  | ScopesValue (v : value)       (* as stored, or as json.loads gave it *)
  | ScopesList (s : string).      (* [scopes] *)

Record credentials := {
  token : value;
  refresh_token : string;
  token_uri : string;
  client_id : option string;
  client_secret : option string;
  scopes : scopes_t
}.

Definition set_token (c : credentials) (t : string) : credentials :=
  {| token := VStr t; refresh_token := refresh_token c; token_uri := token_uri c;
     client_id := client_id c; client_secret := client_secret c; scopes := scopes c |}.

(** ** The persistence layer *)

Inductive row :=
  | RowDict (d : gmap string value)
  | RowOther.

Record supabase_client := {
  (* .table("perm_users").select(...).eq("calendar_connected", True).execute().data *)
  sb_execute : result (option (list row))
}.

(** ** The world *)

Record fernet := { decrypt : string -> result string }.

Record World := {
  environ : gmap string string;
  create_client : string -> string -> result supabase_client;
  import_google_api : result unit;
  import_google_auth : result unit;
  import_fernet : result unit;
  Fernet : string -> result fernet;
  decode_utf8 : string -> result string;
  json_loads : string -> result value;
  fromisoformat : string -> result datetime;
  utcnow : Z;
  local_utcoffset : Z;
  refresh : credentials -> result string;
  build : credentials -> result service
}.

(** [datetime.now(tz)] *)
Definition datetime_now (w : World) (tz : option Z) : datetime :=
  match tz with
  | Some off => {| wall := utcnow w + off; tzinfo := Some off |}
  | None => {| wall := utcnow w + local_utcoffset w; tzinfo := None |}
  end.

(** The instant a datetime denotes, in microseconds since the epoch; a
    naive one is read in local time, as [datetime.now(None)] is. *)
Definition timestamp (w : World) (d : datetime) : Z :=
  match tzinfo d with
  | Some off => wall d - off
  | None => wall d - local_utcoffset w
  end.

(** ** The object and the monad *)

(** [self.stats] *)
Record Stats := {
  users_processed : nat;
  users_successful : nat;
  users_failed : nat;
  total_events_found : nat;
  total_events_deleted : nat;
  errors : list string
}.

(** The state-changing calls the script issues to the outside. *)
Inductive effect :=
  | EffRefresh (refresh_tok : string)     (* credentials.refresh(Request()) *)
  | EffDelete (eventId : string)          (* events().delete(...).execute() *)
  | EffSleep (seconds : nat).             (* time.sleep(seconds) *)

(** The attributes of a [CalendarCleanup] object, and the ghost trace. *)
Record CalendarCleanup := {
  dry_run : bool;
  supabase : option supabase_client;
  encryption_key : option string;
  google_client_id : option string;
  google_client_secret : option string;
  stats : Stats;
  trace : list effect
}.

(** [CalendarCleanup.__init__] *)
Definition init_stats : Stats :=
  {| users_processed := 0; users_successful := 0; users_failed := 0;
     total_events_found := 0; total_events_deleted := 0; errors := [] |}.

Definition __init__ (dr : bool) : CalendarCleanup :=
  {| dry_run := dr; supabase := None; encryption_key := None;
     google_client_id := None; google_client_secret := None;
     stats := init_stats; trace := [] |}.

Definition with_stats (f : Stats -> Stats) (self : CalendarCleanup) : CalendarCleanup :=
  {| dry_run := dry_run self; supabase := supabase self;
     encryption_key := encryption_key self;
     google_client_id := google_client_id self;
     google_client_secret := google_client_secret self;
     stats := f (stats self); trace := trace self |}.

Definition with_trace (e : effect) (self : CalendarCleanup) : CalendarCleanup :=
  {| dry_run := dry_run self; supabase := supabase self;
     encryption_key := encryption_key self;
     google_client_id := google_client_id self;
     google_client_secret := google_client_secret self;
     stats := stats self; trace := (trace self ++ [e])%list |}.

Definition incr_processed (s : Stats) : Stats :=
  {| users_processed := users_processed s + 1; users_successful := users_successful s;
     users_failed := users_failed s; total_events_found := total_events_found s;
     total_events_deleted := total_events_deleted s; errors := errors s |}.
Definition incr_successful (s : Stats) : Stats :=
  {| users_processed := users_processed s; users_successful := users_successful s + 1;
     users_failed := users_failed s; total_events_found := total_events_found s;
     total_events_deleted := total_events_deleted s; errors := errors s |}.
(** [stats["users_failed"] += 1; stats["errors"].append(msg)] *)
Definition record_failure (msg : string) (s : Stats) : Stats :=
  {| users_processed := users_processed s; users_successful := users_successful s;
     users_failed := users_failed s + 1; total_events_found := total_events_found s;
     total_events_deleted := total_events_deleted s; errors := (errors s ++ [msg])%list |}.
Definition add_found (n : nat) (s : Stats) : Stats :=
  {| users_processed := users_processed s; users_successful := users_successful s;
     users_failed := users_failed s; total_events_found := total_events_found s + n;
     total_events_deleted := total_events_deleted s; errors := errors s |}.
Definition add_deleted (n : nat) (s : Stats) : Stats :=
  {| users_processed := users_processed s; users_successful := users_successful s;
     users_failed := users_failed s; total_events_found := total_events_found s;
     total_events_deleted := total_events_deleted s + n; errors := errors s |}.

(** A method: it reads and updates [self] and returns or raises.  What
    it did to [self] before raising stays done. *)
Definition M (A : Type) : Type := CalendarCleanup -> CalendarCleanup * result A.

Definition ret {A} (a : A) : M A := fun self => (self, Ok a).
Definition raise {A} (e : exn) : M A := fun self => (self, Raise e).
Definition bind {A B} (m : M A) (k : A -> M B) : M B :=
  fun self =>
    match m self with
    | (self', Ok a) => k a self'
    | (self', Raise e) => (self', Raise e)
    end.
Definition lift {A} (r : result A) : M A := fun self => (self, r).
Definition get_self : M CalendarCleanup := fun self => (self, Ok self).
Definition update_stats (f : Stats -> Stats) : M unit :=
  fun self => (with_stats f self, Ok tt).
Definition emit (e : effect) : M unit :=
  fun self => (with_trace e self, Ok tt).

(** [try: m except C as e: h e], where [catches] tells the classes [C]
    covers. *)
Definition try_except {A} (m : M A) (catches : exn_class -> bool) (h : exn -> M A) : M A :=
  fun self =>
    match m self with
    | (self', Ok a) => (self', Ok a)
    | (self', Raise e) => if catches (exn_cls e) then h e self' else (self', Raise e)
    end.

(** [except Exception], [except ImportError], [except RefreshError] *)
Definition Exception_ (c : exn_class) : bool := true.
Definition ImportError_ (c : exn_class) : bool :=
  match c with ImportError => true | _ => false end.
Definition RefreshError_ (c : exn_class) : bool :=
  match c with RefreshError => true | _ => false end.

Notation "x <~ m ;; k" := (bind m (fun x => k))
  (at level 100, m at next level, right associativity).
Notation "m ;;; k" := (bind m (fun _ => k))
  (at level 100, right associativity).

(** ** The script *)

Definition EVENT_PATTERNS : list string :=
  [ "PWD Expiration:"; "ETA 9089 Filing:"; "ETA 9089 Expiration:";
    "Ready to File:"; "Recruitment Expires:"; "I-140 Deadline:";
    "RFI Response Due:"; "RFE Response Due:" ].

Definition set_env_attrs (k cid csec : option string) : M unit :=
  fun self =>
    ({| dry_run := dry_run self; supabase := supabase self; encryption_key := k;
        google_client_id := cid; google_client_secret := csec;
        stats := stats self; trace := trace self |}, Ok tt).

Definition set_supabase (c : supabase_client) : M unit :=
  fun self =>
    ({| dry_run := dry_run self; supabase := Some c;
        encryption_key := encryption_key self;
        google_client_id := google_client_id self;
        google_client_secret := google_client_secret self;
        stats := stats self; trace := trace self |}, Ok tt).

Definition missing (name : string) (v : option string) : list string :=
  if opt_truthy v then [] else [name].

(** [CalendarCleanup.initialize] *)
Definition initialize (w : World) : M bool :=
  let supabase_url : option string := environ w !! "SUPABASE_URL" in
  let supabase_key : option string := environ w !! "SUPABASE_KEY" in
  set_env_attrs (environ w !! "ENCRYPTION_KEY") (environ w !! "GOOGLE_CLIENT_ID")
                (environ w !! "GOOGLE_CLIENT_SECRET") ;;;
  self <~ get_self ;;
  let missing_vars :=
    (missing "SUPABASE_URL" supabase_url ++ missing "SUPABASE_KEY" supabase_key ++
     missing "ENCRYPTION_KEY" (encryption_key self) ++
     missing "GOOGLE_CLIENT_ID" (google_client_id self) ++
     missing "GOOGLE_CLIENT_SECRET" (google_client_secret self))%list in
  match missing_vars with
  | _ :: _ => ret false
  | [] =>
      connected <~ try_except
        (c <~ lift (create_client w (default "" supabase_url) (default "" supabase_key)) ;;
         set_supabase c ;;; ret true)
        Exception_ (fun _ => ret false) ;;
      if negb connected then ret false else
      imported <~ try_except (lift (import_google_api w) ;;; ret true)
        ImportError_ (fun _ => ret false) ;;
      if negb imported then ret false else
      ret true
  end.

(** [s.encode('utf-8')]: a [str] is held as its UTF-8 bytes; any other
    value has no [encode] attribute. *)
Definition encode_utf8 (v : value) : result string :=
  match v with
  | VStr s => Ok s
  | _ => Raise (Exn AttributeError "object has no attribute 'encode'")
  end.

(** The body of the [try] in [decrypt_token]: import [Fernet], build it
    from the key, decrypt the encoded token, decode the plaintext. *)
Definition fernet_decrypt (w : World) (key : string) (encrypted_token : value)
    : result string :=
  rbind (import_fernet w) (fun _ =>
  let key_bytes := key in
  rbind (Fernet w key_bytes) (fun f =>
  rbind (encode_utf8 encrypted_token) (fun token_bytes =>
  rbind (decrypt f token_bytes) (fun decrypted_bytes =>
  decode_utf8 w decrypted_bytes)))).

(** [CalendarCleanup.decrypt_token] *)
Definition decrypt_token (w : World) (encrypted_token : value) : M (option string) :=
  self <~ get_self ;;
  if negb (truthy encrypted_token) || negb (opt_truthy (encryption_key self))
  then ret None
  else
    try_except
      (plain <~ lift (fernet_decrypt w (default "" (encryption_key self)) encrypted_token) ;;
       ret (Some plain))
      Exception_ (fun _ => ret None).

(** The scope list: a [str] is parsed as JSON, and kept whole as the
    only scope when that fails. *)
Definition parse_scopes (w : World) (scopes : value) : scopes_t :=
  match scopes with
  | VStr s =>
      match json_loads w s with
      | Ok v => ScopesValue v
      | Raise _ => ScopesList s
      end
  | v => ScopesValue v
  end.

(** The body of the [try] on the expiry:
    [expiry_dt = datetime.fromisoformat(token_expiry.replace("Z", "+00:00"))]
    and the test [datetime.now(expiry_dt.tzinfo) >= expiry_dt]. *)
Definition parse_expiry (w : World) (token_expiry : value) : result datetime :=
  match token_expiry with
  | VStr s => fromisoformat w (replace_Z s)
  | _ => Raise (Exn AttributeError "object has no attribute 'replace'")
  end.

Definition expiry_passed (w : World) (token_expiry : value) : result bool :=
  match parse_expiry w token_expiry with
  | Ok expiry_dt => datetime_ge (datetime_now w (tzinfo expiry_dt)) expiry_dt
  | Raise e => Raise e
  end.

Definition needs_refresh (w : World) (token_expiry : value) : bool :=
  if truthy token_expiry then
    match expiry_passed w token_expiry with
    | Ok passed => passed
    | Raise _ => true
    end
  else true.

(** [Credentials(token=..., refresh_token=..., ...)] for a user. *)
Definition make_credentials (w : World) (cid csec : option string)
    (user_data : gmap string value) (refresh_tok : string) : credentials :=
  {| token := dict_get user_data "google_access_token";
     refresh_token := refresh_tok;
     token_uri := "https://oauth2.googleapis.com/token";
     client_id := cid;
     client_secret := csec;
     scopes := parse_scopes w (dict_get_or user_data "google_scopes" (VOther false "[]")) |}.

(** [CalendarCleanup.get_google_credentials] *)
Definition get_google_credentials (w : World) (user_data : gmap string value)
    : M (option credentials) :=
  lift (import_google_auth w) ;;;
  refresh_tok <~ decrypt_token w (dict_get user_data "google_refresh_token") ;;
  if negb (opt_truthy refresh_tok) then ret None else
  self <~ get_self ;;
  let creds := make_credentials w (google_client_id self) (google_client_secret self)
                 user_data (default "" refresh_tok) in
  if needs_refresh w (dict_get user_data "google_token_expiry") then
    try_except
      (emit (EffRefresh (refresh_token creds)) ;;;
       fresh <~ lift (refresh w creds) ;;
       ret (Some (set_token creds fresh)))
      RefreshError_ (fun _ => ret None)
  else ret (Some creds).

(** [CalendarCleanup.get_calendar_service] *)
Definition get_calendar_service (w : World) (creds : credentials) : M service :=
  lift (build w creds).

(** An entry of [events_found]: the dict with keys [id], [summary] and
    [start] that the script builds. *)
Record found_event := {
  f_id : string;
  f_summary : string;
  f_start : option string
}.

(** [event.get('start', {}).get('date') or event.get('start', {}).get('dateTime')] *)
Definition start_of (event : raw_event) : option string :=
  let d := match ev_start event with Some sd => date sd | None => None end in
  if opt_truthy d then d
  else match ev_start event with Some sd => dateTime sd | None => None end.

(** [any(summary.startswith(p) for p in EVENT_PATTERNS)] *)
Definition is_perm_summary (summary : string) : bool :=
  existsb (fun p => startswith summary p) EVENT_PATTERNS.

(** [any(e['id'] == event['id'] for e in events_found)] *)
Definition already_found (events_found : list found_event) (event : raw_event) : bool :=
  existsb (fun e => String.eqb (f_id e) (ev_id event)) events_found.

(** The body of [for event in events] in [find_perm_events]. *)
Definition scan_event (events_found : list found_event) (event : raw_event)
    : list found_event :=
  let summary := default "" (ev_summary event) in
  if is_perm_summary summary then
    if negb (already_found events_found event) then
      (events_found ++
        [ {| f_id := ev_id event; f_summary := summary; f_start := start_of event |} ])%list
    else events_found
  else events_found.

Definition scan_events (events_found : list found_event) (events : list raw_event)
    : list found_event :=
  fold_left scan_event events events_found.

(** The [while True] loop over the pages of one pattern.  It hands back
    [events_found] as the loop left it, and the exception if a request
    raised. *)
Fixpoint page_loop (p : pages) (events_found : list found_event)
    : list found_event * option exn :=
  match p with
  | PageRaise e => (events_found, Some e)
  | PageLast items => (scan_events events_found (default [] items), None)
  | PageMore items page_token next =>
      let events_found' := scan_events events_found (default [] items) in
      if negb (str_truthy page_token) then (events_found', None)
      else page_loop next events_found'
  end.

(** The [for pattern in EVENT_PATTERNS] loop, inside the [try]. *)
Fixpoint pattern_loop (svc : service) (time_min time_max : Z)
    (patterns : list string) (events_found : list found_event)
    : list found_event * option exn :=
  match patterns with
  | [] => (events_found, None)
  | pattern :: rest =>
      match page_loop (events_list svc pattern time_min time_max) events_found with
      | (events_found', None) => pattern_loop svc time_min time_max rest events_found'
      | (events_found', Some e) => (events_found', Some e)
      end
  end.

(** [CalendarCleanup.find_perm_events]: the [except Exception] clause
    only logs, and [events_found] is returned either way. *)
Definition find_perm_events (w : World) (svc : service) : list found_event :=
  let now := utcnow w in
  let time_min := (now - timedelta_days 730)%Z in
  let time_max := (now + timedelta_days 365)%Z in
  fst (pattern_loop svc time_min time_max EVENT_PATTERNS []).

(** [CalendarCleanup.delete_events], with the running [deleted_count]. *)
Fixpoint delete_loop (svc : service) (events : list found_event) (deleted_count : nat)
    : M nat :=
  match events with
  | [] => ret deleted_count
  | event :: rest =>
      self <~ get_self ;;
      deleted_count' <~ try_except
        ((if dry_run self then ret tt
          else emit (EffDelete (f_id event)) ;;; lift (events_delete svc (f_id event))) ;;;
         ret (deleted_count + 1))
        Exception_ (fun _ => ret deleted_count) ;;
      delete_loop svc rest deleted_count'
  end.

Definition delete_events (svc : service) (events : list found_event) : M nat :=
  delete_loop svc events 0.

(** [CalendarCleanup.process_user] *)
Definition process_user (w : World) (user_data : gmap string value) : M bool :=
  creds <~ get_google_credentials w user_data ;;
  match creds with
  | None => ret false
  | Some creds =>
      svc <~ try_except (s <~ get_calendar_service w creds ;; ret (Some s))
               Exception_ (fun _ => ret None) ;;
      match svc with
      | None => ret false
      | Some svc =>
          let events := find_perm_events w svc in
          let events_found := List.length events in
          update_stats (add_found events_found) ;;;
          if Nat.eqb events_found 0 then ret true else
          deleted <~ delete_events svc events ;;
          update_stats (add_deleted deleted) ;;;
          ret true
      end
  end.

(** The user dict and the email of a row, as [run] takes them. *)
Definition user_dict_of (user : row) : gmap string value :=
  match user with RowDict d => d | RowOther => ∅ end.
Definition user_email_of (user : row) : string :=
  py_str (dict_get_or (user_dict_of user) "email" (VStr "unknown")).

(** One turn of [for i, user in enumerate(users)] in [run]; [n] is
    [len(users)]. *)
Definition run_user (w : World) (n i : nat) (user : row) : M unit :=
  update_stats incr_processed ;;;
  let user_dict := user_dict_of user in
  let user_email := user_email_of user in
  try_except
    (ok <~ process_user w user_dict ;;
     if ok then update_stats incr_successful
     else update_stats (record_failure ("User " +:+ user_email +:+ ": credential/auth failure")))
    Exception_
    (fun e => update_stats (record_failure ("User " +:+ user_email +:+ ": " +:+ exn_str e))) ;;;
  if Nat.ltb i (n - 1) then emit (EffSleep 1) else ret tt.

Fixpoint run_users (w : World) (n i : nat) (users : list row) : M unit :=
  match users with
  | [] => ret tt
  | user :: rest => run_user w n i user ;;; run_users w n (S i) rest
  end.

(** The query of [run]: [None] stands for its [return False]. *)
Definition query_users (w : World) : M (option (list row)) :=
  try_except
    (self <~ get_self ;;
     match supabase self with
     | None => ret None
     | Some client =>
         data <~ lift (sb_execute client) ;;
         ret (Some (match data with
                    | Some (u :: us) => u :: us
                    | _ => []
                    end))
     end)
    Exception_ (fun _ => ret None).

(** [CalendarCleanup.run] *)
Definition run (w : World) : M bool :=
  initialized <~ initialize w ;;
  if negb initialized then ret false else
  users <~ query_users w ;;
  match users with
  | None => ret false
  | Some [] => ret true
  | Some users =>
      run_users w (List.length users) 0 users ;;;
      self <~ get_self ;;
      ret (Nat.eqb (users_failed (stats self)) 0)
  end.

(** [main]: the exit status of the process.  An exception that escapes
    [run] ends the interpreter with status 1. *)
Definition main (w : World) (dry_run_flag : bool) : Z :=
  match snd (run w (__init__ dry_run_flag)) with
  | Ok true => 0%Z
  | Ok false => 1%Z
  | Raise _ => 1%Z
  end.

(** ** The specification's vocabulary *)

(** The entry the script keeps for a raw event. *)
Definition entry_of (event : raw_event) : found_event :=
  {| f_id := ev_id event; f_summary := default "" (ev_summary event);
     f_start := start_of event |}.

(** "An entry qualifies only if its display text starts with one of the
    patterns." *)
Definition qualifies (event : raw_event) : bool :=
  is_perm_summary (default "" (ev_summary event)).

(** "Deduplication is by entry identity: keep exactly one instance,
    first-seen order."  [seen] holds the identities met so far. *)
Fixpoint dedupe_by_identity (seen : list string) (entries : list raw_event)
    : list raw_event :=
  match entries with
  | [] => []
  | e :: rest =>
      if existsb (String.eqb (ev_id e)) seen then dedupe_by_identity seen rest
      else e :: dedupe_by_identity (seen ++ [ev_id e])%list rest
  end.

(** [filterAndDedupe(rawEntries, patterns)] of the EventMatcher, in the
    specification's words. *)
Definition filterAndDedupe (rawEntries : list raw_event) : list found_event :=
  map entry_of (dedupe_by_identity [] (List.filter qualifies rawEntries)).

(** The raw entries the requests for one pattern return, up to the page
    the loop stops at, and the exception that ends them, if any. *)
Fixpoint pages_items (p : pages) : list raw_event :=
  match p with
  | PageRaise _ => []
  | PageLast items => default [] items
  | PageMore items page_token next =>
      if negb (str_truthy page_token) then default [] items
      else (default [] items ++ pages_items next)%list
  end.

Fixpoint pages_error (p : pages) : option exn :=
  match p with
  | PageRaise e => Some e
  | PageLast _ => None
  | PageMore _ page_token next =>
      if negb (str_truthy page_token) then None else pages_error next
  end.

(** The time window [find_perm_events] searches. *)
Definition time_min (w : World) : Z := (utcnow w - timedelta_days 730)%Z.
Definition time_max (w : World) : Z := (utcnow w + timedelta_days 365)%Z.

(** What discovery returns for a list of patterns, in request order. *)
Definition discovered (w : World) (svc : service) (patterns : list string)
    : list raw_event :=
  List.concat (map (fun q => pages_items (events_list svc q (time_min w) (time_max w))) patterns).

(** [self] after further effects went out. *)
Definition emit_all (effs : list effect) (self : CalendarCleanup) : CalendarCleanup :=
  {| dry_run := dry_run self; supabase := supabase self;
     encryption_key := encryption_key self;
     google_client_id := google_client_id self;
     google_client_secret := google_client_secret self;
     stats := stats self; trace := (trace self ++ effs)%list |}.

(** [n] more events found and [d] more deleted. *)
Definition bump (n d : nat) (s : Stats) : Stats := add_deleted d (add_found n s).

Definition is_delete (e : effect) : bool :=
  match e with EffDelete _ => true | _ => false end.

(** The relations between the counters of [self.stats]. *)
Definition stats_consistent (s : Stats) : Prop :=
  users_processed s = users_successful s + users_failed s /\
  total_events_deleted s <= total_events_found s.

(** Every deletion request the provider receives succeeds. *)
Definition deletions_succeed (w : World) : Prop :=
  forall creds svc eventId, build w creds = Ok svc -> events_delete svc eventId = Ok tt.

(** The stored refresh token of a user decrypts, under [key], to the
    non-empty [rt]. *)
Definition refresh_token_of (w : World) (key : option string)
    (user_data : gmap string value) (rt : string) : Prop :=
  truthy (dict_get user_data "google_refresh_token") = true /\
  opt_truthy key = true /\
  fernet_decrypt w (default "" key) (dict_get user_data "google_refresh_token") = Ok rt /\
  str_truthy rt = true.

(** The credentials [get_google_credentials] builds for a user. *)
Definition credentials_of (w : World) (self : CalendarCleanup)
    (user_data : gmap string value) (rt : string) : credentials :=
  make_credentials w (google_client_id self) (google_client_secret self) user_data rt.

(** The entry [run] appends to [stats["errors"]] for a failed user. *)
Definition error_entry (user : row) (text : string) : string :=
  "User " +:+ user_email_of user +:+ ": " +:+ text.

(** How [run] settles a user: a success, or a failure with its entry
    in the error list. *)
Definition settle (failure : option string) (s : Stats) : Stats :=
  match failure with
  | None => incr_successful s
  | Some msg => record_failure msg s
  end.

(** The pause after user [i] of [n]. *)
Definition pacing (n i : nat) : list effect :=
  if Nat.ltb i (n - 1) then [EffSleep 1] else [].

(** [self] once [initialize] has set its attributes. *)
Definition configured (sb : option supabase_client) (k cid csec : option string)
    (self : CalendarCleanup) : CalendarCleanup :=
  {| dry_run := dry_run self; supabase := sb; encryption_key := k;
     google_client_id := cid; google_client_secret := csec;
     stats := stats self; trace := trace self |}.

(** A dry-run object [sd] and a live object [sl] that went through the
    same users: same configuration, same users processed, successful and
    failed, same error list, same events found; the dry run issued no
    deletion and planned the deletion of every event found, the live run
    deleted at most as many, and as many when no deletion fails. *)
Record parity (w : World) (sd sl : CalendarCleanup) : Prop := {
  par_dry : dry_run sd = true;
  par_live : dry_run sl = false;
  par_supabase : supabase sd = supabase sl;
  par_key : encryption_key sd = encryption_key sl;
  par_cid : google_client_id sd = google_client_id sl;
  par_csec : google_client_secret sd = google_client_secret sl;
  par_processed : users_processed (stats sd) = users_processed (stats sl);
  par_successful : users_successful (stats sd) = users_successful (stats sl);
  par_failed : users_failed (stats sd) = users_failed (stats sl);
  par_errors : errors (stats sd) = errors (stats sl);
  par_found : total_events_found (stats sd) = total_events_found (stats sl);
  par_planned : total_events_deleted (stats sd) = total_events_found (stats sd);
  par_deleted : total_events_deleted (stats sl) <= total_events_deleted (stats sd);
  par_all_deleted :
    deletions_succeed w -> total_events_deleted (stats sl) = total_events_deleted (stats sd);
  par_no_delete : forall e, In e (trace sd) -> is_delete e = false
}.

(** ** The claims that do not hold as stated *)

(** "A provider-side error raised while listing events for one pattern is
    treated as zero results for that pattern only: the searches for every
    other pattern are still performed and their results are returned." *)
Definition listing_error_isolated_per_pattern : Prop :=
  forall (w : World) (svc : service) (q : string) (e : exn),
    In q EVENT_PATTERNS ->
    pages_error (events_list svc q (time_min w) (time_max w)) = Some e ->
    forall (q' : string) (r : raw_event),
      In q' EVENT_PATTERNS -> q' <> q ->
      In r (pages_items (events_list svc q' (time_min w) (time_max w))) ->
      qualifies r = true ->
      In (ev_id r) (map f_id (find_perm_events w svc)).

(** "If the provider's refresh operation fails, credential resolution
    returns absent." *)
Definition refresh_failure_returns_absent : Prop :=
  forall (w : World) (user_data : gmap string value) (self : CalendarCleanup)
         (rt : string) (e : exn),
    import_google_auth w = Ok tt ->
    refresh_token_of w (encryption_key self) user_data rt ->
    needs_refresh w (dict_get user_data "google_token_expiry") = true ->
    refresh w (credentials_of w self user_data rt) = Raise e ->
    snd (get_google_credentials w user_data self) = Ok None.

(** "For every dry-run and live execution over identical discovery
    results, the statistics are identical." *)
Definition dry_run_live_statistics_identical : Prop :=
  forall w : World,
    stats (fst (run w (__init__ true))) = stats (fst (run w (__init__ false))).

(** ** Concrete worlds *)

Definition example_environ : gmap string string :=
  list_to_map
    [ ("SUPABASE_URL", "https://v1.supabase.co"); ("SUPABASE_KEY", "service-key");
      ("ENCRYPTION_KEY", "fernet-key"); ("GOOGLE_CLIENT_ID", "client-id");
      ("GOOGLE_CLIENT_SECRET", "client-secret") ].

(** A user row; the refresh token is stored as [ciphertext], the token
    expired on 2024-01-01. *)
Definition example_user (email ciphertext : string) : gmap string value :=
  list_to_map
    [ ("id", VStr "7"); ("email", VStr email);
      ("google_refresh_token", VStr ciphertext);
      ("google_access_token", VStr "ya29.old");
      ("google_token_expiry", VStr "2024-01-01T00:00:00Z");
      ("google_scopes", VStr "https://www.googleapis.com/auth/calendar");
      ("calendar_connected", VBool true) ].

Definition example_service (listing : string -> pages) (deleting : string -> result unit)
    : service :=
  {| events_list := fun q _ _ => listing q; events_delete := deleting |}.

(** A world with all five variables set, a Fernet that decrypts the
    ciphertexts starting with [gAAAA], a clock at 2024-01-01 01:00 UTC,
    the given user rows, refresh behaviour and calendar service. *)
Definition example_world (users : option (list row))
    (refreshing : string -> result string) (svc : service) : World :=
  {| environ := example_environ;
     create_client := fun _ _ => Ok {| sb_execute := Ok users |};
     import_google_api := Ok tt;
     import_google_auth := Ok tt;
     import_fernet := Ok tt;
     Fernet := fun _ =>
       Ok {| decrypt := fun tok =>
               if startswith tok "gAAAA" then Ok ("1//" +:+ tok)
               else Raise (Exn OtherError "InvalidToken") |};
     decode_utf8 := fun b => Ok b;
     json_loads := fun _ => Raise (Exn OtherError "Expecting value");
     fromisoformat := fun s =>
       if String.eqb s "2024-01-01T00:00:00+00:00"
       then Ok {| wall := 1704067200000000; tzinfo := Some 0%Z |}
       else Raise (Exn OtherError "Invalid isoformat string");
     utcnow := 1704070800000000;
     local_utcoffset := 0;
     refresh := fun creds => refreshing (refresh_token creds);
     build := fun _ => Ok svc |}.

Definition acme_event : raw_event :=
  {| ev_id := "a"; ev_summary := Some "PWD Expiration: Acme";
     ev_start := Some {| date := Some "2024-03-01"; dateTime := None |} |}.

Definition filing_event : raw_event :=
  {| ev_id := "f"; ev_summary := Some "ETA 9089 Filing: Acme";
     ev_start := Some {| date := None; dateTime := Some "2024-04-01T09:00:00Z" |} |}.

(** The first search raises; the second would return an event. *)
Definition failing_first_search : service :=
  example_service
    (fun q =>
       if String.eqb q "PWD Expiration:" then PageRaise (Exn OtherError "HttpError 500")
       else if String.eqb q "ETA 9089 Filing:" then PageLast (Some [filing_event])
       else PageLast None)
    (fun _ => Ok tt).

(** One event, returned by the first search, and a deletion outcome. *)
Definition one_event_service (deleting : result unit) : service :=
  example_service
    (fun q => if String.eqb q "PWD Expiration:" then PageLast (Some [acme_event])
              else PageLast None)
    (fun _ => deleting).

Definition refresh_ok (rt : string) : result string := Ok "ya29.fresh".

(** The token endpoint cannot be reached for the refresh token of the
    first user. *)
Definition refresh_unreachable_for (rt0 : string) (rt : string) : result string :=
  if String.eqb rt rt0 then Raise (Exn OtherError "TransportError: connection reset")
  else Ok "ya29.fresh".

Definition refresh_revoked (rt : string) : result string :=
  Raise (Exn RefreshError "invalid_grant: Token has been expired or revoked.").

Definition alice : gmap string value := example_user "a@x.org" "gAAAA-1".
Definition bob : gmap string value := example_user "b@x.org" "gAAAA-2".

(** Nothing fails; the table is not consulted. *)
Definition quiet_world : World :=
  example_world None refresh_ok (one_event_service (Ok tt)).
(** One user, one event, nothing fails. *)
Definition one_user_world : World :=
  example_world (Some [RowDict alice]) refresh_ok (one_event_service (Ok tt)).
(** One user, one event, and the provider refuses the deletion. *)
Definition refused_deletion_world : World :=
  example_world (Some [RowDict alice]) refresh_ok
    (one_event_service (Raise (Exn OtherError "HttpError 410"))).
(** The token endpoint cannot be reached for [alice]. *)
Definition unreachable_world : World :=
  example_world None (refresh_unreachable_for "1//gAAAA-1") (one_event_service (Ok tt)).
(** Every grant has been revoked. *)
Definition revoked_world : World :=
  example_world None refresh_revoked (one_event_service (Ok tt)).
(** No user has the calendar connected. *)
Definition empty_table_world : World :=
  example_world (Some []) refresh_ok (one_event_service (Ok tt)).
(** The first search raises. *)
Definition failing_search_world : World :=
  example_world None refresh_ok failing_first_search.

(** The object once [initialize] has run in a world. *)
Definition initialized (w : World) : CalendarCleanup :=
  fst (initialize w (__init__ false)).

(** ** Vocabulary for the calls issued and for the configuration *)

(** The event ids of the deletion requests in a trace, in order. *)
Definition deleted_ids (t : list effect) : list string :=
  flat_map (fun e => match e with EffDelete i => [i] | _ => [] end) t.

Definition is_sleep (e : effect) : bool :=
  match e with EffSleep _ => true | _ => false end.

(** The number of pauses in a trace. *)
Definition sleeps (t : list effect) : nat := List.length (List.filter is_sleep t).

(** The events of a list whose deletion request succeeds. *)
Definition count_deleted (deleting : string -> result unit) (events : list found_event)
    : nat :=
  List.length (List.filter (fun e => is_ok (deleting (f_id e))) events).

(** All five environment variables are set and non-empty. *)
Definition configuration_complete (w : World) : bool :=
  opt_truthy (environ w !! "SUPABASE_URL") && opt_truthy (environ w !! "SUPABASE_KEY") &&
  opt_truthy (environ w !! "ENCRYPTION_KEY") &&
  opt_truthy (environ w !! "GOOGLE_CLIENT_ID") &&
  opt_truthy (environ w !! "GOOGLE_CLIENT_SECRET").

(** The names [initialize] reports as missing, in the order it checks. *)
Definition missing_vars (w : World) : list string :=
  (missing "SUPABASE_URL" (environ w !! "SUPABASE_URL") ++
   missing "SUPABASE_KEY" (environ w !! "SUPABASE_KEY") ++
   missing "ENCRYPTION_KEY" (environ w !! "ENCRYPTION_KEY") ++
   missing "GOOGLE_CLIENT_ID" (environ w !! "GOOGLE_CLIENT_ID") ++
   missing "GOOGLE_CLIENT_SECRET" (environ w !! "GOOGLE_CLIENT_SECRET"))%list.

(** A raw event that a search of [svc] returned in the window of [w]
    and whose summary starts with a pattern. *)
Definition discovered_target (w : World) (svc : service) (r : raw_event) : Prop :=
  exists q, In q EVENT_PATTERNS /\
    In r (pages_items (events_list svc q (time_min w) (time_max w))) /\
    qualifies r = true.

(** A world with another environment, and with another Supabase
    client constructor. *)
Definition with_environ (env : gmap string string) (w : World) : World :=
  {| environ := env; create_client := create_client w;
     import_google_api := import_google_api w; import_google_auth := import_google_auth w;
     import_fernet := import_fernet w; Fernet := Fernet w; decode_utf8 := decode_utf8 w;
     json_loads := json_loads w; fromisoformat := fromisoformat w; utcnow := utcnow w;
     local_utcoffset := local_utcoffset w; refresh := refresh w; build := build w |}.

Definition with_create_client (f : string -> string -> result supabase_client) (w : World)
    : World :=
  {| environ := environ w; create_client := f;
     import_google_api := import_google_api w; import_google_auth := import_google_auth w;
     import_fernet := import_fernet w; Fernet := Fernet w; decode_utf8 := decode_utf8 w;
     json_loads := json_loads w; fromisoformat := fromisoformat w; utcnow := utcnow w;
     local_utcoffset := local_utcoffset w; refresh := refresh w; build := build w |}.

Definition with_build (f : credentials -> result service) (w : World) : World :=
  {| environ := environ w; create_client := create_client w;
     import_google_api := import_google_api w; import_google_auth := import_google_auth w;
     import_fernet := import_fernet w; Fernet := Fernet w; decode_utf8 := decode_utf8 w;
     json_loads := json_loads w; fromisoformat := fromisoformat w; utcnow := utcnow w;
     local_utcoffset := local_utcoffset w; refresh := refresh w; build := f |}.

(** Two pages for the first pattern, one page for the second; the
    event [acme_event] comes back on both pages of the first search. *)
Definition paginated_service : service :=
  example_service
    (fun q =>
       if String.eqb q "PWD Expiration:"
       then PageMore (Some [acme_event]) "page-2" (PageLast (Some [acme_event]))
       else if String.eqb q "ETA 9089 Filing:" then PageLast (Some [filing_event])
       else PageLast None)
    (fun _ => Ok tt).

(** The same answers inside the window of [quiet_world]; every request
    for another window raises. *)
Definition window_only_service : service :=
  {| events_list := fun q t1 t2 =>
       if (Z.eqb t1 1640998800000000 && Z.eqb t2 1735606800000000)%bool
       then events_list paginated_service q t1 t2
       else PageRaise (Exn OtherError "HttpError 400");
     events_delete := fun _ => Ok tt |}.

Definition with_clock (now : Z) (w : World) : World :=
  {| environ := environ w; create_client := create_client w;
     import_google_api := import_google_api w; import_google_auth := import_google_auth w;
     import_fernet := import_fernet w; Fernet := Fernet w; decode_utf8 := decode_utf8 w;
     json_loads := json_loads w; fromisoformat := fromisoformat w; utcnow := now;
     local_utcoffset := local_utcoffset w; refresh := refresh w; build := build w |}.

(** [quiet_world] an hour before the tokens expire (2023-12-31 23:00 UTC). *)
Definition earlier_world : World := with_clock 1704063600000000 quiet_world.

(** The key is set but empty. *)
Definition unconfigured_world : World :=
  with_environ (<["ENCRYPTION_KEY" := ""]> example_environ) one_user_world.

(** The table cannot be read. *)
Definition unreadable_table_world : World :=
  with_create_client
    (fun _ _ => Ok {| sb_execute := Raise (Exn OtherError "APIError: permission denied") |})
    one_user_world.

(** The calendar service cannot be built. *)
Definition no_service_world : World :=
  with_build (fun _ => Raise (Exn OtherError "UnknownApiNameOrVersion")) quiet_world.

(** A user whose stored refresh token is not a Fernet token. *)
Definition carol : gmap string value := example_user "c@x.org" "not-a-token".

Definition with_google_api_import (r : result unit) (w : World) : World :=
  {| environ := environ w; create_client := create_client w;
     import_google_api := r; import_google_auth := import_google_auth w;
     import_fernet := import_fernet w; Fernet := Fernet w; decode_utf8 := decode_utf8 w;
     json_loads := json_loads w; fromisoformat := fromisoformat w; utcnow := utcnow w;
     local_utcoffset := local_utcoffset w; refresh := refresh w; build := build w |}.

(** Importing the Google client library fails on a syntax error in an
    installed module, which is not an [ImportError]. *)
Definition broken_import_world : World :=
  with_google_api_import (Raise (Exn OtherError "SyntaxError: invalid syntax"))
    one_user_world.

(** ** What the run does for each user, read off the world *)

(** The calendar service [process_user] works with for a user: the one
    built from the credentials that [get_google_credentials] resolves for
    this user, if both steps succeed. *)
Definition user_service (w : World) (self : CalendarCleanup)
    (user_data : gmap string value) : option service :=
  match snd (get_google_credentials w user_data self) with
  | Ok (Some creds) =>
      match build w creds with Ok svc => Some svc | Raise _ => None end
  | _ => None
  end.

(** The events found in this user's calendar. *)
Definition user_events (w : World) (self : CalendarCleanup)
    (user_data : gmap string value) : list found_event :=
  match user_service w self user_data with
  | Some svc => find_perm_events w svc
  | None => []
  end.

(** Among the events found for this user, the number of those whose
    deletion request succeeds at this user's service. *)
Definition user_deleted (w : World) (self : CalendarCleanup)
    (user_data : gmap string value) : nat :=
  match user_service w self user_data with
  | Some svc => count_deleted (events_delete svc) (find_perm_events w svc)
  | None => 0
  end.

(** What credential resolution issues for this user. *)
Definition user_refreshes (w : World) (self : CalendarCleanup)
    (user_data : gmap string value) : list effect :=
  drop (List.length (trace self)) (trace (fst (get_google_credentials w user_data self))).

(** What is issued for this user in a dry run ([dr] true) or a live
    run: the refresh, then in a live run one deletion request per event
    found, in the order found. *)
Definition user_calls (w : World) (self : CalendarCleanup) (dr : bool)
    (user_data : gmap string value) : list effect :=
  (user_refreshes w self user_data ++
   (if dr then [] else map EffDelete (map f_id (user_events w self user_data))))%list.

(** What [process_user] returns or raises for this user. *)
Definition user_result (w : World) (self : CalendarCleanup)
    (user_data : gmap string value) : result bool :=
  match snd (get_google_credentials w user_data self) with
  | Ok (Some creds) =>
      match build w creds with Ok _ => Ok true | Raise _ => Ok false end
  | Ok None => Ok false
  | Raise e => Raise e
  end.

(** The entry of the error list for this user, if the user fails. *)
Definition user_failure (w : World) (self : CalendarCleanup) (user : row) : option string :=
  match user_result w self (user_dict_of user) with
  | Ok true => None
  | Ok false => Some (error_entry user "credential/auth failure")
  | Raise e => Some (error_entry user (exn_str e))
  end.

Definition failure_entries (w : World) (self : CalendarCleanup) (users : list row)
    : list string :=
  flat_map (fun u => match user_failure w self u with Some m => [m] | None => [] end) users.

(** The blocks of a list put one after the other with [sep] between two
    consecutive blocks, and nothing after the last. *)
Fixpoint interleave {A} (sep : list A) (blocks : list (list A)) : list A :=
  match blocks with
  | [] => []
  | [b] => b
  | b :: rest => (b ++ sep ++ interleave sep rest)%list
  end.

(** The blocks of turns [i], [i+1], ... of a loop over [n] users, each
    followed by its pause. *)
Fixpoint paced (n i : nat) (blocks : list (list effect)) : list effect :=
  match blocks with
  | [] => []
  | b :: rest => (b ++ pacing n i ++ paced n (S i) rest)%list
  end.

(** The rows [run] goes through: the rows the query returned, and none
    when [initialize] or the query failed. *)
Definition queried_users (w : World) : list row :=
  match snd (initialize w (__init__ false)) with
  | Ok true =>
      match snd (query_users w (initialized w)) with
      | Ok (Some users) => users
      | _ => []
      end
  | _ => []
  end.

(** None of the deletion requests a live run issues for these users
    fails. *)
Definition no_deletion_fails (w : World) (self : CalendarCleanup) (users : list row) : Prop :=
  forall u svc e,
    In u users -> user_service w self (user_dict_of u) = Some svc ->
    In e (find_perm_events w svc) -> events_delete svc (f_id e) = Ok tt.

(** Two objects with the same key and client identity. *)
Definition same_config (a b : CalendarCleanup) : Prop :=
  encryption_key a = encryption_key b /\
  google_client_id a = google_client_id b /\
  google_client_secret a = google_client_secret b.

(** * Properties *)

(** ** Strings *)



(** ** Filtering and deduplication *)

Lemma existsb_eqb_In (x : string) (l : list string) :
  existsb (String.eqb x) l = true <-> In x l.
Proof.
  rewrite existsb_exists. split.
  - intros (y & Hin & Heq). apply String.eqb_eq in Heq. now subst.
  - intros Hin. exists x. split; [assumption | apply String.eqb_refl].
Qed.

Lemma already_found_ids (events_found : list found_event) (event : raw_event) :
  already_found events_found event =
  existsb (String.eqb (ev_id event)) (map f_id events_found).
Proof.
  unfold already_found. induction events_found as [|e l IH]; simpl; [reflexivity|].
  rewrite IH. f_equal. apply String.eqb_sym.
Qed.

Lemma scan_events_refines (events_found : list found_event) (events : list raw_event) :
  scan_events events_found events =
  (events_found ++
   map entry_of (dedupe_by_identity (map f_id events_found) (List.filter qualifies events)))%list.
Proof.
  revert events_found. induction events as [|e l IH]; intros acc; simpl.
  - now rewrite app_nil_r.
  - unfold scan_events in *. simpl. unfold scan_event at 2. fold (qualifies e).
    destruct (qualifies e) eqn:Hq; simpl; [|apply IH].
    rewrite already_found_ids.
    destruct (existsb (String.eqb (ev_id e)) (map f_id acc)) eqn:Hseen; simpl.
    + apply IH.
    + rewrite IH. rewrite map_app. simpl. now rewrite <- app_assoc.
Qed.

Lemma dedupe_ids_In (seen : list string) (l : list raw_event) (i : string) :
  In i (map ev_id (dedupe_by_identity seen l)) <-> ~ In i seen /\ In i (map ev_id l).
Proof.
  revert seen. induction l as [|e l IH]; intros seen; simpl.
  - tauto.
  - destruct (existsb (String.eqb (ev_id e)) seen) eqn:Hseen.
    + apply existsb_eqb_In in Hseen. rewrite IH.
      split; [tauto|]. intros [Hn [<-|H]]; tauto.
    + assert (~ In (ev_id e) seen) as Hn
        by (rewrite <- existsb_eqb_In; congruence).
      simpl. rewrite IH, in_app_iff. simpl.
      destruct (String.eqb_spec (ev_id e) i) as [<-|Hne]; tauto.
Qed.

Lemma dedupe_ids_NoDup (seen : list string) (l : list raw_event) :
  NoDup (map ev_id (dedupe_by_identity seen l)).
Proof.
  revert seen. induction l as [|e l IH]; intros seen; simpl.
  - constructor.
  - destruct (existsb (String.eqb (ev_id e)) seen); [apply IH|].
    simpl. apply NoDup_cons_2; [|apply IH].
    rewrite list_elem_of_In, dedupe_ids_In, in_app_iff. simpl. tauto.
Qed.

Lemma dedupe_sublist (seen : list string) (l : list raw_event) :
  sublist (dedupe_by_identity seen l) l.
Proof.
  revert seen. induction l as [|e l IH]; intros seen; simpl.
  - constructor.
  - destruct (existsb (String.eqb (ev_id e)) seen).
    + apply sublist_cons, IH.
    + apply sublist_skip, IH.
Qed.


Lemma map_ids_entry_of (l : list raw_event) : map f_id (map entry_of l) = map ev_id l.
Proof. rewrite map_map. reflexivity. Qed.


Lemma sublist_In {A} (l1 l2 : list A) (x : A) :
  sublist l1 l2 -> In x l1 -> In x l2.
Proof.
  intros Hsub Hin. apply list_elem_of_In. apply list_elem_of_In in Hin.
  eapply elem_of_sublist; eassumption.
Qed.



(** ** States *)

(** Unfold the operations of the monad [M]. *)
Ltac munfold :=
  unfold bind, ret, raise, lift, get_self, update_stats, emit, try_except; cbn beta iota.

Lemma emit_all_nil (self : CalendarCleanup) : emit_all [] self = self.
Proof. destruct self; unfold emit_all; simpl. now rewrite app_nil_r. Qed.

Lemma emit_all_app (e1 e2 : list effect) (self : CalendarCleanup) :
  emit_all e2 (emit_all e1 self) = emit_all (e1 ++ e2) self.
Proof. unfold emit_all; simpl. now rewrite app_assoc. Qed.

Lemma emit_all_with_stats (f : Stats -> Stats) (effs : list effect) (self : CalendarCleanup) :
  with_stats f (emit_all effs self) = emit_all effs (with_stats f self).
Proof. reflexivity. Qed.

Lemma with_stats_compose (f g : Stats -> Stats) (self : CalendarCleanup) :
  with_stats g (with_stats f self) = with_stats (fun s => g (f s)) self.
Proof. reflexivity. Qed.

Lemma bump_0_0 (s : Stats) : bump 0 0 s = s.
Proof.
  destruct s; unfold bump, add_deleted, add_found; simpl.
  now rewrite !Nat.add_0_r.
Qed.

Lemma with_stats_bump_0_0 (self : CalendarCleanup) : with_stats (bump 0 0) self = self.
Proof. destruct self; unfold with_stats; simpl. now rewrite bump_0_0. Qed.

(** ** Decryption *)

Lemma decrypt_token_uniform (w : World) (encrypted_token : value) (k : option string) :
  exists v, forall self, encryption_key self = k ->
    decrypt_token w encrypted_token self = (self, Ok v).
Proof.
  destruct (negb (truthy encrypted_token) || negb (opt_truthy k)) eqn:Habsent.
  - exists None. intros self <-. unfold decrypt_token, bind, get_self.
    now rewrite Habsent.
  - destruct (fernet_decrypt w (default "" k) encrypted_token) as [plain|e] eqn:Hd.
    + exists (Some plain). intros self <-.
      unfold decrypt_token, bind, get_self, try_except, lift, ret.
      now rewrite Habsent, Hd.
    + exists None. intros self <-.
      unfold decrypt_token, bind, get_self, try_except, lift, ret.
      now rewrite Habsent, Hd.
Qed.

(** C3. [decrypt_token] never raises and leaves [self] as it was: it
    returns a value, which is [None] when the ciphertext is absent, when
    the key is absent, and whenever the decryption (import, key, encoding,
    decryption proper, decoding) raises, whatever the exception; it is
    the plaintext only when the decryption went through. *)
Theorem C3_decrypt_token_never_raises (w : World) (encrypted_token : value)
    (self : CalendarCleanup) :
  exists v, decrypt_token w encrypted_token self = (self, Ok v)
  /\ (encrypted_token = VNone \/ encryption_key self = None -> v = None)
  /\ (forall e, fernet_decrypt w (default "" (encryption_key self)) encrypted_token = Raise e ->
        v = None)
  /\ (forall plain, v = Some plain ->
        fernet_decrypt w (default "" (encryption_key self)) encrypted_token = Ok plain).
Proof.
  unfold decrypt_token, bind, get_self, try_except, lift, ret.
  destruct (negb (truthy encrypted_token) || negb (opt_truthy (encryption_key self)))
    eqn:Habsent.
  - exists None. split; [reflexivity|]. split; [intros; reflexivity|].
    split; [intros; reflexivity | discriminate].
  - destruct (fernet_decrypt w (default "" (encryption_key self)) encrypted_token)
      as [plain|e] eqn:Hd; simpl.
    + exists (Some plain). split; [reflexivity|]. split; [|split].
      * intros [-> | Hk]; [discriminate Habsent|].
        rewrite Hk in Habsent. simpl in Habsent.
        now rewrite orb_true_r in Habsent.
      * discriminate.
      * now intros ? [= ->].
    + exists None. split; [reflexivity|]. split; [intros; reflexivity|].
      split; [intros; reflexivity | discriminate].
Qed.

Lemma decrypt_token_some (w : World) (encrypted_token : value) (self : CalendarCleanup)
    (plain : string) :
  truthy encrypted_token = true -> opt_truthy (encryption_key self) = true ->
  fernet_decrypt w (default "" (encryption_key self)) encrypted_token = Ok plain ->
  decrypt_token w encrypted_token self = (self, Ok (Some plain)).
Proof.
  intros Ht Hk Hd. unfold decrypt_token, bind, get_self, try_except, lift, ret.
  now rewrite Ht, Hk, Hd.
Qed.

Lemma decrypt_token_none (w : World) (encrypted_token : value) (self : CalendarCleanup)
    (e : exn) :
  fernet_decrypt w (default "" (encryption_key self)) encrypted_token = Raise e ->
  decrypt_token w encrypted_token self = (self, Ok None).
Proof.
  intros Hd. unfold decrypt_token, bind, get_self, try_except, lift, ret.
  rewrite Hd. now destruct (_ || _).
Qed.

(** ** Credentials *)

Lemma expiry_passed_spec (w : World) (token_expiry : value) (dt : datetime) :
  parse_expiry w token_expiry = Ok dt ->
  expiry_passed w token_expiry = Ok (timestamp w dt <=? utcnow w)%Z.
Proof.
  intros Hp. unfold expiry_passed. rewrite Hp.
  unfold datetime_now, datetime_ge, timestamp.
  destruct (tzinfo dt) as [off|] eqn:Htz; simpl; rewrite ?Htz; f_equal;
    apply eq_true_iff_eq; rewrite !Z.leb_le; lia.
Qed.


(** What [get_google_credentials] does once the refresh token is there. *)
Lemma get_google_credentials_decrypted (w : World) (user_data : gmap string value)
    (self : CalendarCleanup) (rt : string) :
  import_google_auth w = Ok tt ->
  refresh_token_of w (encryption_key self) user_data rt ->
  let creds := credentials_of w self user_data rt in
  get_google_credentials w user_data self =
  if needs_refresh w (dict_get user_data "google_token_expiry") then
    match refresh w creds with
    | Ok fresh => (emit_all [EffRefresh rt] self, Ok (Some (set_token creds fresh)))
    | Raise e =>
        if RefreshError_ (exn_cls e) then (emit_all [EffRefresh rt] self, Ok None)
        else (emit_all [EffRefresh rt] self, Raise e)
    end
  else (self, Ok (Some creds)).
Proof.
  intros Himp (Ht & Hk & Hd & Hrt) creds.
  unfold get_google_credentials, bind at 1. unfold lift at 1. rewrite Himp.
  unfold bind at 1. rewrite (decrypt_token_some _ _ _ _ Ht Hk Hd).
  simpl. rewrite Hrt. simpl. unfold bind at 1, get_self. simpl.
  fold (credentials_of w self user_data rt). fold creds.
  destruct (needs_refresh w _); [|reflexivity].
  unfold try_except, bind, emit, lift, ret. simpl.
  destruct (refresh w creds) as [fresh|e]; [reflexivity|].
  destruct (RefreshError_ (exn_cls e)); reflexivity.
Qed.

(** [get_google_credentials] reads the key and the client identity of
    [self] and nothing else; it leaves the statistics alone and issues no
    deletion. *)
Lemma get_google_credentials_uniform (w : World) (user_data : gmap string value)
    (k cid csec : option string) :
  exists effs r,
    (forall e, In e effs -> is_delete e = false) /\
    forall self, encryption_key self = k -> google_client_id self = cid ->
      google_client_secret self = csec ->
      get_google_credentials w user_data self = (emit_all effs self, r).
Proof.
  destruct (import_google_auth w) as [[]|e] eqn:Himp.
  2: { exists [], (Raise e). split; [intros ? []|]. intros self _ _ _.
       unfold get_google_credentials, bind at 1. unfold lift at 1.
       now rewrite Himp, emit_all_nil. }
  destruct (decrypt_token_uniform w (dict_get user_data "google_refresh_token") k)
    as [v Hv].
  destruct (opt_truthy v) eqn:Hrt.
  2: { exists [], (Ok None). split; [intros ? []|]. intros self Hk _ _.
       unfold get_google_credentials, bind at 1. unfold lift at 1. rewrite Himp.
       unfold bind at 1. rewrite (Hv self Hk), Hrt. simpl.
       now rewrite emit_all_nil. }
  set (creds := make_credentials w cid csec user_data (default "" v)).
  assert (forall self, encryption_key self = k -> google_client_id self = cid ->
            google_client_secret self = csec ->
            get_google_credentials w user_data self =
            if needs_refresh w (dict_get user_data "google_token_expiry") then
              try_except
                (emit (EffRefresh (refresh_token creds)) ;;;
                 fresh <~ lift (refresh w creds) ;;
                 ret (Some (set_token creds fresh)))
                RefreshError_ (fun _ => ret None) self
            else (self, Ok (Some creds))) as Hshape.
  { intros self Hk <- <-.
    unfold get_google_credentials, bind at 1. unfold lift at 1. rewrite Himp.
    unfold bind at 1. rewrite (Hv self Hk), Hrt. simpl.
    unfold bind at 1, get_self.
    destruct (needs_refresh w (dict_get user_data "google_token_expiry"));
      reflexivity. }
  destruct (needs_refresh w (dict_get user_data "google_token_expiry")).
  2: { exists [], (Ok (Some creds)). split; [intros ? []|]. intros self Hk Hc Hs.
       now rewrite (Hshape self Hk Hc Hs), emit_all_nil. }
  destruct (refresh w creds) as [fresh|e] eqn:Hr.
  - exists [EffRefresh (refresh_token creds)], (Ok (Some (set_token creds fresh))).
    split; [intros ? [<-|[]]; reflexivity|]. intros self Hk Hc Hs.
    rewrite (Hshape self Hk Hc Hs). reflexivity.
  - destruct (RefreshError_ (exn_cls e)) eqn:Hcls.
    + exists [EffRefresh (refresh_token creds)], (Ok None).
      split; [intros ? [<-|[]]; reflexivity|]. intros self Hk Hc Hs.
      rewrite (Hshape self Hk Hc Hs). unfold try_except, bind, emit, lift, ret.
      now rewrite Hcls.
    + exists [EffRefresh (refresh_token creds)], (Raise e).
      split; [intros ? [<-|[]]; reflexivity|]. intros self Hk Hc Hs.
      rewrite (Hshape self Hk Hc Hs). unfold try_except, bind, emit, lift, ret.
      now rewrite Hcls.
Qed.

(** ** Deletion *)

Lemma delete_loop_dry_run (svc : service) (events : list found_event) (c : nat)
    (self : CalendarCleanup) :
  dry_run self = true ->
  delete_loop svc events c self = (self, Ok (c + List.length events)).
Proof.
  intros Hdry. revert c. induction events as [|ev l IH]; intros c; simpl.
  - unfold ret. now rewrite Nat.add_0_r.
  - munfold. rewrite Hdry. cbn. rewrite IH. f_equal. f_equal. lia.
Qed.

Lemma delete_loop_live (svc : service) (events : list found_event) :
  exists d, d <= List.length events /\
    ((forall eventId, events_delete svc eventId = Ok tt) -> d = List.length events) /\
    forall c self, dry_run self = false ->
      delete_loop svc events c self =
      (emit_all (map EffDelete (map f_id events)) self, Ok (c + d)).
Proof.
  induction events as [|ev l (d & Hle & Hall & IH)].
  - exists 0. split; [reflexivity|]. split; [reflexivity|]. intros c self _. simpl.
    unfold ret. now rewrite emit_all_nil, Nat.add_0_r.
  - destruct (events_delete svc (f_id ev)) as [[]|e] eqn:Hdel.
    + exists (S d). split; [simpl; lia|]. split; [intros H; simpl; f_equal; auto|].
      intros c self Hlive. simpl. munfold. rewrite Hlive. cbn. rewrite Hdel. cbn.
      rewrite IH by exact Hlive. change (with_trace ?e self) with (emit_all [e] self).
      rewrite emit_all_app. simpl. f_equal. f_equal. lia.
    + exists d. split; [simpl; lia|]. split; [intros H; rewrite H in Hdel; discriminate|].
      intros c self Hlive. simpl. munfold. rewrite Hlive. cbn. rewrite Hdel. cbn.
      rewrite IH by exact Hlive. change (with_trace ?e self) with (emit_all [e] self).
      rewrite emit_all_app. reflexivity.
Qed.

(** ** One user *)

Lemma add_found_0 (s : Stats) : add_found 0 s = s.
Proof. destruct s; unfold add_found; simpl. now rewrite Nat.add_0_r. Qed.

Lemma with_stats_add_found_0 (self : CalendarCleanup) : with_stats (add_found 0) self = self.
Proof. destruct self; unfold with_stats; simpl. now rewrite add_found_0. Qed.

(** What [process_user] does to [self], whatever [self] is: the effects
    of the credential resolution, [n] events found, and either a planned
    deletion of all [n] (dry run) or deletion requests of which [d]
    succeed (live).  The result, [n] and the effects before deletion do
    not depend on the mode. *)
Lemma process_user_uniform (w : World) (user_data : gmap string value)
    (k cid csec : option string) :
  exists (effs : list effect) (dels : list string) (r : result bool) (n d : nat),
    d <= n /\
    (forall e, In e effs -> is_delete e = false) /\
    (deletions_succeed w -> d = n) /\
    forall self, encryption_key self = k -> google_client_id self = cid ->
      google_client_secret self = csec ->
      process_user w user_data self =
      if dry_run self then (emit_all effs (with_stats (bump n n) self), r)
      else (emit_all (effs ++ map EffDelete dels) (with_stats (bump n d) self), r).
Proof.
  destruct (get_google_credentials_uniform w user_data k cid csec)
    as (effs & rc & Hnd & Hgc).
  assert (forall (r : result bool) self,
            (emit_all effs self, r) =
            if dry_run self then (emit_all effs (with_stats (bump 0 0) self), r)
            else (emit_all (effs ++ map EffDelete []) (with_stats (bump 0 0) self), r))
    as Hidle.
  { intros r self. simpl. rewrite app_nil_r, with_stats_bump_0_0.
    now destruct (dry_run self). }
  destruct rc as [[creds|]|e].
  - destruct (build w creds) as [svc|e] eqn:Hb.
    + destruct (find_perm_events w svc) as [|ev l] eqn:Hev.
      * exists effs, [], (Ok true), 0, 0. split; [lia|]. split; [assumption|]. split; [reflexivity|].
        intros self Hk Hc Hs. rewrite <- Hidle.
        unfold process_user. munfold. rewrite (Hgc self Hk Hc Hs).
        unfold get_calendar_service. munfold. rewrite Hb, Hev. simpl.
        now rewrite with_stats_add_found_0.
      * destruct (delete_loop_live svc (ev :: l)) as (d & Hle & Hall & Hlive).
        exists effs, (map f_id (ev :: l)), (Ok true), (List.length (ev :: l)), d.
        split; [assumption|]. split; [assumption|].
        split; [intros Hok; apply Hall; intros i; eapply Hok; eassumption|].
        intros self Hk Hc Hs.
        unfold process_user. munfold. rewrite (Hgc self Hk Hc Hs).
        unfold get_calendar_service. munfold. rewrite Hb, Hev.
        cbn [List.length Nat.eqb]. unfold delete_events.
        destruct (dry_run self) eqn:Hdry.
        -- rewrite delete_loop_dry_run by exact Hdry. reflexivity.
        -- rewrite Hlive by exact Hdry. unfold emit_all, with_stats, bump. cbn.
           now rewrite app_assoc.
    + exists effs, [], (Ok false), 0, 0. split; [lia|]. split; [assumption|]. split; [reflexivity|].
      intros self Hk Hc Hs. rewrite <- Hidle.
      unfold process_user. munfold. rewrite (Hgc self Hk Hc Hs).
      unfold get_calendar_service. munfold. now rewrite Hb.
  - exists effs, [], (Ok false), 0, 0. split; [lia|]. split; [assumption|]. split; [reflexivity|].
    intros self Hk Hc Hs. rewrite <- Hidle.
    unfold process_user. munfold. now rewrite (Hgc self Hk Hc Hs).
  - exists effs, [], (Raise e), 0, 0. split; [lia|]. split; [assumption|]. split; [reflexivity|].
    intros self Hk Hc Hs. rewrite <- Hidle.
    unfold process_user. munfold. now rewrite (Hgc self Hk Hc Hs).
Qed.

(** One turn of the loop of [run]: it never raises; the user is counted
    as processed, then settled as successful or failed. *)
Lemma run_user_uniform (w : World) (user : row) (k cid csec : option string) :
  exists (effs : list effect) (dels : list string) (failure : option string) (n d : nat),
    d <= n /\
    (forall e, In e effs -> is_delete e = false) /\
    (deletions_succeed w -> d = n) /\
    forall total i self, encryption_key self = k -> google_client_id self = cid ->
      google_client_secret self = csec ->
      run_user w total i user self =
      if dry_run self then
        (emit_all (effs ++ pacing total i)
           (with_stats (fun s => settle failure (bump n n (incr_processed s))) self), Ok tt)
      else
        (emit_all ((effs ++ map EffDelete dels) ++ pacing total i)
           (with_stats (fun s => settle failure (bump n d (incr_processed s))) self), Ok tt).
Proof.
  destruct (process_user_uniform w (user_dict_of user) k cid csec)
    as (effs & dels & r & n & d & Hle & Hnd & Hall & Hpu).
  exists effs, dels,
    (match r with
     | Ok true => None
     | Ok false => Some ("User " +:+ user_email_of user +:+ ": credential/auth failure")
     | Raise e => Some ("User " +:+ user_email_of user +:+ ": " +:+ exn_str e)
     end), n, d.
  split; [assumption|]. split; [assumption|]. split; [assumption|].
  intros total i self Hk Hc Hs. unfold run_user, pacing. munfold.
  rewrite (Hpu (with_stats incr_processed self) Hk Hc Hs).
  cbn [dry_run with_stats].
  destruct (dry_run self), r as [[|]|e], (Nat.ltb i (total - 1)); cbn;
    unfold emit_all, with_stats, with_trace; cbn;
    rewrite ?app_nil_r, <- ?app_assoc; reflexivity.
Qed.

(** ** The loop over the users *)

Lemma settle_consistent (failure : option string) (n d : nat) (s : Stats) :
  d <= n -> stats_consistent s ->
  stats_consistent (settle failure (bump n d (incr_processed s))).
Proof.
  intros Hle [Hu He]. unfold stats_consistent.
  destruct failure; simpl; lia.
Qed.

Lemma run_user_frame (w : World) (n i : nat) (user : row) (self : CalendarCleanup) :
  let r := run_user w n i user self in
  snd r = Ok tt
  /\ dry_run (fst r) = dry_run self
  /\ supabase (fst r) = supabase self
  /\ encryption_key (fst r) = encryption_key self
  /\ google_client_id (fst r) = google_client_id self
  /\ google_client_secret (fst r) = google_client_secret self
  /\ users_processed (stats (fst r)) = users_processed (stats self) + 1
  /\ (stats_consistent (stats self) -> stats_consistent (stats (fst r))).
Proof.
  destruct (run_user_uniform w user (encryption_key self) (google_client_id self)
              (google_client_secret self))
    as (effs & dels & failure & f & d & Hle & _ & _ & Hru).
  intros r. subst r. rewrite (Hru n i self eq_refl eq_refl eq_refl).
  destruct (dry_run self) eqn:Hdry; cbn; rewrite ?Hdry;
    do 6 (split; [reflexivity|]);
    (split; [destruct failure; reflexivity|]);
    (intros Hc; apply settle_consistent; [lia | assumption]).
Qed.

Lemma run_users_frame (w : World) (n : nat) (users : list row) :
  forall i self,
  let r := run_users w n i users self in
  snd r = Ok tt
  /\ dry_run (fst r) = dry_run self
  /\ supabase (fst r) = supabase self
  /\ encryption_key (fst r) = encryption_key self
  /\ google_client_id (fst r) = google_client_id self
  /\ google_client_secret (fst r) = google_client_secret self
  /\ users_processed (stats (fst r)) = users_processed (stats self) + List.length users
  /\ (stats_consistent (stats self) -> stats_consistent (stats (fst r))).
Proof.
  induction users as [|user rest IH]; intros i self; cbn zeta.
  - simpl. rewrite Nat.add_0_r. tauto.
  - simpl. unfold bind.
    pose proof (run_user_frame w n i user self) as Hstep. cbn zeta in Hstep.
    destruct (run_user w n i user self) as [self' r]. simpl in Hstep.
    destruct Hstep as (-> & Hd & Hsb & Hk & Hc & Hs & Hp & Hinv).
    specialize (IH (S i) self'). cbn zeta in IH.
    destruct IH as (H1 & H2 & H3 & H4 & H5 & H6 & H7 & H8).
    split; [assumption|]. do 5 (split; [congruence|]).
    split; [lia|]. intros Hcons. apply H8, Hinv, Hcons.
Qed.

Lemma run_users_app (w : World) (n : nat) (l1 l2 : list row) :
  forall i self,
  run_users w n i (l1 ++ l2) self =
  run_users w n (i + List.length l1) l2 (fst (run_users w n i l1 self)).
Proof.
  induction l1 as [|user rest IH]; intros i self; simpl.
  - now rewrite Nat.add_0_r.
  - unfold bind.
    pose proof (run_user_frame w n i user self) as Hstep. cbn zeta in Hstep.
    destruct (run_user w n i user self) as [self' r]. simpl in Hstep.
    destruct Hstep as (-> & _). rewrite IH. f_equal. lia.
Qed.

(** ** Dry run and live run, side by side *)

Lemma pacing_no_delete (n i : nat) (e : effect) : In e (pacing n i) -> is_delete e = false.
Proof.
  unfold pacing. destruct (Nat.ltb i (n - 1)); simpl; [|tauto].
  intros [<-|[]]. reflexivity.
Qed.

Lemma run_user_parity (w : World) (n i : nat) (user : row) (sd sl : CalendarCleanup) :
  parity w sd sl ->
  parity w (fst (run_user w n i user sd)) (fst (run_user w n i user sl)).
Proof.
  intros P.
  destruct (run_user_uniform w user (encryption_key sd) (google_client_id sd)
              (google_client_secret sd))
    as (effs & dels & failure & f & d & Hle & Hnd & Hall & Hru).
  rewrite (Hru n i sd eq_refl eq_refl eq_refl).
  rewrite (Hru n i sl (eq_sym (par_key _ _ _ P)) (eq_sym (par_cid _ _ _ P))
             (eq_sym (par_csec _ _ _ P))).
  rewrite (par_dry _ _ _ P), (par_live _ _ _ P). cbn [fst].
  destruct P as [Pd Pl Psb Pk Pc Ps Pp Psu Pf Pe Pfo Ppl Pde Pall Pnd].
  constructor; cbn; try assumption.
  - destruct failure; simpl; lia.
  - destruct failure; simpl; lia.
  - destruct failure; simpl; lia.
  - destruct failure; simpl; congruence.
  - destruct failure; simpl; lia.
  - destruct failure; simpl; lia.
  - destruct failure; simpl; lia.
  - intros Hok. specialize (Pall Hok). specialize (Hall Hok).
    destruct failure; simpl; lia.
  - intros e. rewrite !in_app_iff. intros [H|[H|H]].
    + now apply Pnd.
    + now apply Hnd.
    + now apply pacing_no_delete in H.
Qed.

Lemma run_users_parity (w : World) (n : nat) (users : list row) :
  forall i sd sl, parity w sd sl ->
    parity w (fst (run_users w n i users sd)) (fst (run_users w n i users sl)).
Proof.
  induction users as [|user rest IH]; intros i sd sl P; simpl; [assumption|].
  unfold bind.
  pose proof (run_user_parity w n i user sd sl P) as Pstep.
  pose proof (run_user_frame w n i user sd) as Hd. cbn zeta in Hd.
  pose proof (run_user_frame w n i user sl) as Hl. cbn zeta in Hl.
  destruct (run_user w n i user sd) as [sd' rd].
  destruct (run_user w n i user sl) as [sl' rl].
  simpl in *. destruct Hd as (-> & _). destruct Hl as (-> & _).
  now apply IH.
Qed.

(** ** Initialization and the query *)

(** [initialize] sets the configuration of [self] from the environment
    and touches neither its mode, its statistics nor the trace. *)
Lemma initialize_uniform (w : World) :
  exists (r : result bool) (sbo : option supabase_client),
    forall self, initialize w self =
      (configured (match sbo with Some c => Some c | None => supabase self end)
         (environ w !! "ENCRYPTION_KEY") (environ w !! "GOOGLE_CLIENT_ID")
         (environ w !! "GOOGLE_CLIENT_SECRET") self, r).
Proof.
  destruct ((missing "SUPABASE_URL" (environ w !! "SUPABASE_URL") ++
             missing "SUPABASE_KEY" (environ w !! "SUPABASE_KEY") ++
             missing "ENCRYPTION_KEY" (environ w !! "ENCRYPTION_KEY") ++
             missing "GOOGLE_CLIENT_ID" (environ w !! "GOOGLE_CLIENT_ID") ++
             missing "GOOGLE_CLIENT_SECRET" (environ w !! "GOOGLE_CLIENT_SECRET"))%list)
    as [|m ms] eqn:Hm.
  2: { exists (Ok false), None. intros self.
       unfold initialize, set_env_attrs. munfold. cbn. rewrite Hm. reflexivity. }
  destruct (create_client w (default "" (environ w !! "SUPABASE_URL"))
              (default "" (environ w !! "SUPABASE_KEY"))) as [c|e] eqn:Hc.
  2: { exists (Ok false), None. intros self.
       unfold initialize, set_env_attrs. munfold. cbn. rewrite Hm, Hc. reflexivity. }
  destruct (import_google_api w) as [[]|e] eqn:Hi.
  - exists (Ok true), (Some c). intros self.
    unfold initialize, set_env_attrs, set_supabase. munfold. cbn.
    rewrite Hm, Hc. cbn. rewrite Hi. reflexivity.
  - destruct (ImportError_ (exn_cls e)) eqn:Hcls.
    + exists (Ok false), (Some c). intros self.
      unfold initialize, set_env_attrs, set_supabase. munfold. cbn.
      rewrite Hm, Hc. cbn. rewrite Hi. cbn. rewrite Hcls. reflexivity.
    + exists (Raise e), (Some c). intros self.
      unfold initialize, set_env_attrs, set_supabase. munfold. cbn.
      rewrite Hm, Hc. cbn. rewrite Hi. cbn. rewrite Hcls. reflexivity.
Qed.

(** The query never raises and leaves [self] as it was. *)
Lemma query_users_uniform (w : World) (sb : option supabase_client) :
  exists users, forall self, supabase self = sb ->
    query_users w self = (self, Ok users).
Proof.
  destruct sb as [client|].
  - destruct (sb_execute client) as [data|e] eqn:Hq.
    + eexists. intros self Hsb. unfold query_users. munfold.
      rewrite Hsb. cbn. rewrite Hq. reflexivity.
    + exists None. intros self Hsb. unfold query_users. munfold.
      rewrite Hsb. cbn. rewrite Hq. reflexivity.
  - exists None. intros self Hsb. unfold query_users. munfold. now rewrite Hsb.
Qed.

Lemma initialize_frame (w : World) (self : CalendarCleanup) :
  dry_run (fst (initialize w self)) = dry_run self
  /\ stats (fst (initialize w self)) = stats self
  /\ trace (fst (initialize w self)) = trace self.
Proof.
  destruct (initialize_uniform w) as (r & sbo & Hinit). rewrite Hinit. tauto.
Qed.

Lemma query_users_frame (w : World) (self : CalendarCleanup) :
  exists users, query_users w self = (self, Ok users).
Proof.
  destruct (query_users_uniform w (supabase self)) as [users Hq].
  exists users. now apply Hq.
Qed.

(** ** The run *)

Lemma run_unfold (w : World) (self : CalendarCleanup) :
  run w self =
  match initialize w self with
  | (s1, Ok true) =>
      match snd (query_users w s1) with
      | Ok (Some (u :: us)) =>
          let s2 := fst (run_users w (List.length (u :: us)) 0 (u :: us) s1) in
          (s2, Ok (Nat.eqb (users_failed (stats s2)) 0))
      | Ok (Some []) => (s1, Ok true)
      | _ => (s1, Ok false)
      end
  | (s1, Ok false) => (s1, Ok false)
  | (s1, Raise e) => (s1, Raise e)
  end.
Proof.
  unfold run. unfold bind at 1.
  destruct (initialize w self) as [s1 [[|]|e]]; cbv beta iota; try reflexivity.
  unfold negb. cbv beta iota.
  unfold bind at 1. destruct (query_users_frame w s1) as [users ->].
  unfold snd. cbv beta iota.
  destruct users as [[|u us]|]; try reflexivity.
  unfold bind at 1.
  pose proof (run_users_frame w (List.length (u :: us)) (u :: us) 0 s1) as Hf.
  cbv zeta in Hf. destruct (run_users w _ 0 (u :: us) s1) as [s2 r2].
  unfold fst, snd in Hf. destruct Hf as (-> & _). reflexivity.
Qed.

(** C7. When [run] reaches the loop over the users, it returns whether
    the failed-user counter is zero at the end.  The exit status of
    [main] is 0 iff the initialization succeeded, the query gave a user
    list and no user failed; it is 1 in every other case. *)
Theorem C7_run_result_and_exit_status (w : World) (dry_run_flag : bool) :
  let self0 := __init__ dry_run_flag in
  let init := initialize w self0 in
  let query := query_users w (fst init) in
  let final := run w self0 in
  (forall users, snd init = Ok true -> snd query = Ok (Some users) -> users <> [] ->
     fst final = fst (run_users w (List.length users) 0 users (fst init)) /\
     snd final = Ok (Nat.eqb (users_failed (stats (fst final))) 0))
  /\ (main w dry_run_flag = 0%Z <->
        snd init = Ok true /\ (exists users, snd query = Ok (Some users)) /\
        users_failed (stats (fst final)) = 0)
  /\ (main w dry_run_flag = 0%Z \/ main w dry_run_flag = 1%Z).
Proof.
  intros self0 init query final.
  pose proof (initialize_frame w self0) as (_ & Hstats & _). fold init in Hstats.
  unfold main. fold self0. fold final. unfold final, query. rewrite run_unfold.
  fold init. destruct init as [s1 r1]. cbn [fst snd] in *.
  destruct r1 as [[|]|e].
  - destruct (snd (query_users w s1)) as [[[|u us]|]|e]; cbn [fst snd].
    + split; [intros users _ [= <-] Hne; congruence|].
      split; [|now left]. split; [intros _|reflexivity].
      split; [reflexivity|]. split; [eauto|]. now rewrite Hstats.
    + split.
      { intros users _ [= <-] _. split; reflexivity. }
      destruct (Nat.eqb_spec (users_failed (stats
                  (fst (run_users w (List.length (u :: us)) 0 (u :: us) s1)))) 0)
        as [Hz|Hnz].
      * split; [|now left]. split; [intros _|reflexivity].
        split; [reflexivity|]. split; [eauto|assumption].
      * split; [|now right]. split; [discriminate|]. intros (_ & _ & Hz). contradiction.
    + split; [discriminate|]. split; [|now right].
      split; [discriminate|]. intros (_ & [users H] & _). discriminate.
    + split; [discriminate|]. split; [|now right].
      split; [discriminate|]. intros (_ & [users H] & _). discriminate.
  - split; [discriminate|]. split; [|now right].
    split; [discriminate|]. intros (H & _). discriminate.
  - split; [discriminate|]. split; [|now right].
    split; [discriminate|]. intros (H & _). discriminate.
Qed.

(** C9. When the query returns no user (no data, or an empty list),
    [run] returns [True] at once: no counter has moved, the error list is
    empty, nothing was issued to the provider, and the exit status is 0. *)
Theorem C9_zero_users (w : World) (dry_run_flag : bool) (client : supabase_client) :
  let self0 := __init__ dry_run_flag in
  snd (initialize w self0) = Ok true ->
  supabase (fst (initialize w self0)) = Some client ->
  sb_execute client = Ok None \/ sb_execute client = Ok (Some []) ->
  snd (run w self0) = Ok true
  /\ stats (fst (run w self0)) = init_stats
  /\ trace (fst (run w self0)) = []
  /\ main w dry_run_flag = 0%Z.
Proof.
  intros self0 Hinit Hsb Hzero.
  pose proof (initialize_frame w self0) as (_ & Hstats & Htrace).
  unfold main. fold self0. rewrite run_unfold.
  destruct (initialize w self0) as [s1 r1]. cbn [fst snd] in *. subst r1.
  assert (snd (query_users w s1) = Ok (Some [])) as ->.
  { unfold query_users. munfold. rewrite Hsb. cbv beta iota.
    destruct Hzero as [-> | ->]; reflexivity. }
  cbn [fst snd]. auto.
Qed.

(** C10. In a run that reaches the loop over the users, after each user
    (after the first [k] of them, for every [k]) and at the end of the
    run, [users_processed] is the sum of [users_successful] and
    [users_failed], and [total_events_deleted] is at most
    [total_events_found]. *)
Theorem C10_stats_invariants (w : World) (dry_run_flag : bool) (users : list row) (k : nat) :
  let start := fst (initialize w (__init__ dry_run_flag)) in
  let n := List.length users in
  let after_k := fst (run_users w n 0 (take k users) start) in
  stats_consistent (stats after_k)
  /\ run_users w n 0 users start =
     run_users w n (List.length (take k users)) (drop k users) after_k
  /\ stats_consistent (stats (fst (run w (__init__ dry_run_flag)))).
Proof.
  intros start n after_k.
  assert (stats_consistent (stats start)) as Hstart.
  { unfold start. destruct (initialize_frame w (__init__ dry_run_flag)) as (_ & -> & _).
    split; simpl; lia. }
  split; [|split].
  - now apply run_users_frame.
  - rewrite <- (take_drop k users) at 1. now rewrite run_users_app.
  - rewrite run_unfold. fold start.
    destruct (initialize w (__init__ dry_run_flag)) as [s1 [[|]|e]];
      cbn [fst] in *; try assumption.
    destruct (snd (query_users w s1)) as [[[|u us]|]|e]; cbn [fst]; try assumption.
    now apply run_users_frame.
Qed.

(** Over the same world, a dry run and a live run return the same
    result and exit status and end in states related by [parity]. *)
Lemma run_parity (w : World) :
  let dry := run w (__init__ true) in
  let live := run w (__init__ false) in
  snd dry = snd live
  /\ main w true = main w false
  /\ parity w (fst dry) (fst live).
Proof.
  intros dry live.
  assert (snd dry = snd live /\ parity w (fst dry) (fst live)) as [Hres Hpar].
  2: { split; [assumption|]. split; [|assumption]. unfold main.
       fold dry. fold live. now rewrite Hres. }
  unfold dry, live. rewrite !run_unfold.
  destruct (initialize_uniform w) as (r & sbo & Hinit). rewrite !Hinit.
  set (sd := configured _ _ _ _ (__init__ true)).
  set (sl := configured _ _ _ _ (__init__ false)).
  assert (parity w sd sl) as P by (constructor; cbn; try reflexivity; tauto).
  destruct r as [[|]|e]; cbn [fst snd]; try (split; [reflexivity|assumption]).
  destruct (query_users_uniform w (supabase sd)) as [users Hq].
  rewrite (Hq sd eq_refl), (Hq sl (eq_sym (par_supabase _ _ _ P))). cbn [snd].
  destruct users as [[|u us]|]; cbn [fst snd]; try (split; [reflexivity|assumption]).
  pose proof (run_users_parity w (List.length (u :: us)) (u :: us) 0 sd sl P) as P'.
  split; [|assumption]. now rewrite (par_failed _ _ _ P').
Qed.

(** ** Discovery *)

Lemma scan_events_app (events_found : list found_event) (l1 l2 : list raw_event) :
  scan_events events_found (l1 ++ l2) = scan_events (scan_events events_found l1) l2.
Proof. unfold scan_events. apply fold_left_app. Qed.

Lemma page_loop_spec (p : pages) (events_found : list found_event) :
  page_loop p events_found = (scan_events events_found (pages_items p), pages_error p).
Proof.
  revert events_found. induction p as [e|items|items page_token next IH];
    intros acc; simpl; try reflexivity.
  destruct (negb (str_truthy page_token)); [reflexivity|].
  now rewrite IH, scan_events_app.
Qed.

Lemma pattern_loop_error (svc : service) (t1 t2 : Z) (pre post : list string)
    (q : string) (e : exn) :
  (forall p, In p pre -> pages_error (events_list svc p t1 t2) = None) ->
  pages_error (events_list svc q t1 t2) = Some e ->
  forall events_found,
  pattern_loop svc t1 t2 (pre ++ q :: post) events_found =
  (scan_events events_found
     (List.concat (map (fun p => pages_items (events_list svc p t1 t2)) (pre ++ [q]))),
   Some e).
Proof.
  intros Hpre Hq. induction pre as [|p pre IH]; intros acc; simpl.
  - rewrite page_loop_spec, Hq. now rewrite app_nil_r.
  - rewrite page_loop_spec, (Hpre p) by now left.
    rewrite IH by (intros; apply Hpre; now right).
    now rewrite scan_events_app.
Qed.

Lemma pattern_loop_complete (svc : service) (t1 t2 : Z) (patterns : list string) :
  (forall p, In p patterns -> pages_error (events_list svc p t1 t2) = None) ->
  forall events_found,
  pattern_loop svc t1 t2 patterns events_found =
  (scan_events events_found
     (List.concat (map (fun p => pages_items (events_list svc p t1 t2)) patterns)),
   None).
Proof.
  intros Hok. induction patterns as [|p l IH]; intros acc; simpl; [reflexivity|].
  rewrite page_loop_spec, (Hok p) by now left.
  rewrite IH by (intros; apply Hok; now right).
  now rewrite scan_events_app.
Qed.

(** When no request raises, [find_perm_events] is the filtering and
    deduplication of everything discovery returned. *)
Lemma find_perm_events_complete (w : World) (svc : service) :
  (forall p, In p EVENT_PATTERNS ->
     pages_error (events_list svc p (time_min w) (time_max w)) = None) ->
  find_perm_events w svc = filterAndDedupe (discovered w svc EVENT_PATTERNS).
Proof.
  intros Hok. unfold find_perm_events. fold (time_min w). fold (time_max w).
  rewrite (pattern_loop_complete _ _ _ _ Hok). cbn [fst].
  now rewrite scan_events_refines.
Qed.

(** C5, amended.  A provider error raised while listing for a pattern
    is caught inside [find_perm_events] and does not fail the user: the
    function returns the entries collected up to the error, from the
    patterns before it and from the pages of this pattern before it.  The
    patterns after it in [EVENT_PATTERNS] are not searched: what the
    provider would answer for them does not matter. *)
Theorem C5_listing_error_keeps_partial_results (w : World) (svc : service)
    (pre post : list string) (q : string) (e : exn) :
  EVENT_PATTERNS = (pre ++ q :: post)%list ->
  (forall p, In p pre -> pages_error (events_list svc p (time_min w) (time_max w)) = None) ->
  pages_error (events_list svc q (time_min w) (time_max w)) = Some e ->
  find_perm_events w svc = filterAndDedupe (discovered w svc (pre ++ [q]))
  /\ (forall svc' : service,
        (forall p, In p (pre ++ [q]) -> events_list svc' p = events_list svc p) ->
        find_perm_events w svc' = find_perm_events w svc)
  /\ (forall user_data self self' creds,
        get_google_credentials w user_data self = (self', Ok (Some creds)) ->
        build w creds = Ok svc ->
        snd (process_user w user_data self) = Ok true).
Proof.
  intros Hsplit Hpre Hq.
  assert (forall s : service,
            (forall p, In p (pre ++ [q]) -> events_list s p = events_list svc p) ->
            find_perm_events w s = filterAndDedupe (discovered w svc (pre ++ [q])))
    as Hany.
  { intros s Hagree. unfold find_perm_events. fold (time_min w). fold (time_max w).
    rewrite Hsplit.
    rewrite (pattern_loop_error s _ _ pre post q e).
    - cbn [fst]. rewrite scan_events_refines. unfold filterAndDedupe, discovered.
      simpl. do 3 f_equal. f_equal. apply map_ext_in. intros p Hp. now rewrite Hagree.
    - intros p Hp. rewrite Hagree by (apply in_app_iff; now left). now apply Hpre.
    - rewrite Hagree by (apply in_app_iff; right; now left). exact Hq. }
  split; [|split].
  - apply Hany. reflexivity.
  - intros svc' Hagree. rewrite (Hany svc' Hagree). symmetry. apply Hany. reflexivity.
  - intros user_data self self' creds Hgc Hb.
    unfold process_user. munfold. rewrite Hgc.
    unfold get_calendar_service. munfold. rewrite Hb.
    destruct (Nat.eqb (List.length (find_perm_events w svc)) 0); [reflexivity|].
    unfold delete_events.
    destruct (dry_run (with_stats (add_found (List.length (find_perm_events w svc))) self'))
      eqn:Hdry.
    + now rewrite delete_loop_dry_run.
    + destruct (delete_loop_live svc (find_perm_events w svc)) as (d & _ & _ & Hlive).
      now rewrite Hlive.
Qed.

(** C5, as stated, fails: the first search raises, the second would
    have returned the qualifying event [filing_event], and
    [find_perm_events] returns nothing. *)
Lemma C5_counterexample : ~ listing_error_isolated_per_pattern.
Proof.
  intros H.
  specialize (H failing_search_world failing_first_search "PWD Expiration:"
                (Exn OtherError "HttpError 500")).
  specialize (H ltac:(simpl; tauto) eq_refl "ETA 9089 Filing:" filing_event).
  specialize (H ltac:(simpl; tauto) ltac:(discriminate) ltac:(simpl; tauto) eq_refl).
  vm_compute in H. exact H.
Qed.

Lemma C5_witness :
  find_perm_events failing_search_world failing_first_search = [].
Proof.
  destruct (C5_listing_error_keeps_partial_results
              failing_search_world failing_first_search [] (tl EVENT_PATTERNS)
              "PWD Expiration:" (Exn OtherError "HttpError 500"))
    as (H & _ & _).
  - reflexivity.
  - intros p [].
  - reflexivity.
  - rewrite H. reflexivity.
Defined.

(** ** Credential resolution in the run *)


(** C8, amended.  For a user whose token needs refresh: if the refresh
    raises [RefreshError], credential resolution returns [None], the user
    is not processed further and [run] counts a failed user with the entry
    "credential/auth failure", exactly the statistics a decryption failure
    leaves; if the refresh raises anything else, the exception leaves
    [get_google_credentials] and [run] counts a failed user with the text
    of the exception.  The run goes on in both cases. *)
Theorem C8_refresh_failure (w : World) (user_data : gmap string value)
    (self : CalendarCleanup) (rt : string) (e : exn) (n i : nat) :
  import_google_auth w = Ok tt ->
  refresh_token_of w (encryption_key self) user_data rt ->
  needs_refresh w (dict_get user_data "google_token_expiry") = true ->
  refresh w (credentials_of w self user_data rt) = Raise e ->
  let user := RowDict user_data in
  (exn_cls e = RefreshError ->
     get_google_credentials w user_data self = (emit_all [EffRefresh rt] self, Ok None)
     /\ snd (process_user w user_data self) = Ok false
     /\ snd (run_user w n i user self) = Ok tt
     /\ stats (fst (run_user w n i user self)) =
        record_failure (error_entry user "credential/auth failure")
          (incr_processed (stats self)))
  /\ (exn_cls e <> RefreshError ->
     get_google_credentials w user_data self = (emit_all [EffRefresh rt] self, Raise e)
     /\ snd (run_user w n i user self) = Ok tt
     /\ stats (fst (run_user w n i user self)) =
        record_failure (error_entry user (exn_str e)) (incr_processed (stats self)))
  /\ (forall self0 e0,
        fernet_decrypt w (default "" (encryption_key self0))
          (dict_get user_data "google_refresh_token") = Raise e0 ->
        snd (run_user w n i user self0) = Ok tt
        /\ stats (fst (run_user w n i user self0)) =
           record_failure (error_entry user "credential/auth failure")
             (incr_processed (stats self0))).
Proof.
  intros Himp Hrt Hneeds Hrefresh user.
  pose proof (get_google_credentials_decrypted w user_data self rt Himp Hrt) as Hgc.
  pose proof (get_google_credentials_decrypted w user_data
                (with_stats incr_processed self) rt Himp Hrt) as Hgc1.
  cbv zeta in Hgc, Hgc1. rewrite Hneeds in Hgc, Hgc1.
  change (credentials_of w (with_stats incr_processed self) user_data rt)
    with (credentials_of w self user_data rt) in Hgc1.
  rewrite Hrefresh in Hgc, Hgc1.
  split; [|split].
  - intros Hcls. rewrite Hcls in Hgc, Hgc1.
    change (RefreshError_ RefreshError) with true in Hgc, Hgc1.
    cbv beta iota in Hgc, Hgc1.
    split; [exact Hgc|].
    split; [unfold process_user; munfold; now rewrite Hgc|].
    unfold run_user, process_user. munfold. cbn [user_dict_of user]. rewrite Hgc1.
    destruct (Nat.ltb i (n - 1)); split; reflexivity.
  - intros Hcls. assert (RefreshError_ (exn_cls e) = false) as Hno
      by (destruct (exn_cls e); try reflexivity; congruence).
    rewrite Hno in Hgc, Hgc1. cbv beta iota in Hgc, Hgc1.
    split; [exact Hgc|].
    unfold run_user, process_user. munfold. cbn [user_dict_of user]. rewrite Hgc1.
    destruct (Nat.ltb i (n - 1)); split; reflexivity.
  - intros self0 e0 Hd.
    unfold run_user, process_user, get_google_credentials. munfold.
    cbn [user_dict_of user]. rewrite Himp.
    rewrite (decrypt_token_none w _ (with_stats incr_processed self0) e0 Hd).
    destruct (Nat.ltb i (n - 1)); split; reflexivity.
Qed.

(** ** Failure isolation *)

(** C1.  In the loop of [run] over [pre ++ user :: post]: if
    [process_user] raises [e] for [user], the turn of the loop for [user]
    does not raise; it adds one to [users_failed], appends to the error
    list the entry made of the user's email and [str(e)], leaves
    [users_successful] alone; the loop then goes through every user of
    [post], never raises, and has counted every user of the list as
    processed at the end. *)
Theorem C1_failure_isolation (w : World) (n i : nat) (pre post : list row)
    (user : row) (self : CalendarCleanup) (e : exn) :
  let before := fst (run_users w n i pre self) in
  let j := i + List.length pre in
  snd (process_user w (user_dict_of user) (with_stats incr_processed before)) = Raise e ->
  let turn := run_user w n j user before in
  let whole := run_users w n i (pre ++ user :: post) self in
  snd turn = Ok tt
  /\ users_failed (stats (fst turn)) = users_failed (stats before) + 1
  /\ errors (stats (fst turn)) =
     (errors (stats before) ++ ["User " +:+ user_email_of user +:+ ": " +:+ exn_str e])%list
  /\ users_successful (stats (fst turn)) = users_successful (stats before)
  /\ whole = run_users w n (S j) post (fst turn)
  /\ snd whole = Ok tt
  /\ users_processed (stats (fst whole)) =
     users_processed (stats self) + List.length (pre ++ user :: post).
Proof.
  intros before j Hraise turn whole.
  assert (snd turn = Ok tt) as Hturn by apply run_user_frame.
  split; [assumption|].
  destruct (process_user_uniform w (user_dict_of user) (encryption_key before)
              (google_client_id before) (google_client_secret before))
    as (effs & dels & r & f & d & _ & _ & _ & Hpu).
  specialize (Hpu (with_stats incr_processed before) eq_refl eq_refl eq_refl).
  assert (r = Raise e) as ->.
  { rewrite Hpu in Hraise. now destruct (dry_run (with_stats incr_processed before)). }
  assert (stats (fst turn) =
          record_failure ("User " +:+ user_email_of user +:+ ": " +:+ exn_str e)
            (bump f (if dry_run before then f else d) (incr_processed (stats before))))
    as Hstats.
  { unfold turn, run_user. munfold. rewrite Hpu. cbn [dry_run with_stats].
    destruct (dry_run before), (Nat.ltb j (n - 1)); reflexivity. }
  rewrite Hstats. do 3 (split; [reflexivity|]).
  assert (whole = run_users w n (S j) post (fst turn)) as Hwhole.
  { unfold whole. rewrite run_users_app. fold before. fold j. simpl. unfold bind.
    fold turn. destruct turn as [s r]. simpl in Hturn. subst r. reflexivity. }
  split; [assumption|].
  split; apply run_users_frame.
Qed.

(** Two users; the token endpoint cannot be reached for the first. *)
Lemma C1_witness :
  errors (stats (fst (run_users unreachable_world 2 0 [RowDict alice; RowDict bob]
                        (initialized unreachable_world)))) =
    ["User a@x.org: TransportError: connection reset"]
  /\ users_processed (stats (fst (run_users unreachable_world 2 0
                                    [RowDict alice; RowDict bob]
                                    (initialized unreachable_world)))) = 2.
Proof.
  pose proof (C1_failure_isolation unreachable_world 2 0 [] [RowDict bob] (RowDict alice)
                (initialized unreachable_world)
                (Exn OtherError "TransportError: connection reset") eq_refl)
    as (_ & _ & _ & _ & Hwhole & _ & Hprocessed).
  split; [|exact Hprocessed].
  cbn [app] in Hwhole. rewrite Hwhole. reflexivity.
Defined.

(** ** The claims on concrete worlds *)

(** A ciphertext that Fernet rejects, and an absent one, decrypt to
    [None]. *)
Lemma C3_witness :
  decrypt_token quiet_world (VStr "corrupted") (initialized quiet_world) =
    (initialized quiet_world, Ok None)
  /\ decrypt_token quiet_world VNone (initialized quiet_world) =
    (initialized quiet_world, Ok None).
Proof.
  split.
  - destruct (C3_decrypt_token_never_raises quiet_world (VStr "corrupted")
                (initialized quiet_world))
      as (v & Heq & _ & Hfail & _).
    rewrite Heq. rewrite (Hfail (Exn OtherError "InvalidToken") eq_refl). reflexivity.
  - destruct (C3_decrypt_token_never_raises quiet_world VNone (initialized quiet_world))
      as (v & Heq & Habsent & _).
    rewrite Heq. rewrite (Habsent (or_introl eq_refl)). reflexivity.
Defined.

(** C4, as stated, fails: one user, one event, and the provider refuses
    the deletion.  The dry run counts one deleted event, the live run
    none. *)
Lemma C4_counterexample : ~ dry_run_live_statistics_identical.
Proof.
  intros H. specialize (H refused_deletion_world). vm_compute in H. discriminate H.
Qed.


(** One user, nothing fails: exit status 0. *)
Lemma C7_witness : main one_user_world false = 0%Z.
Proof.
  apply (C7_run_result_and_exit_status one_user_world false).
  split; [reflexivity|]. split; [|reflexivity].
  exists [RowDict alice]. reflexivity.
Defined.

(** C8, as stated, fails: the token endpoint cannot be reached, the
    refresh raises an exception that is not a [RefreshError], and the
    exception leaves [get_google_credentials]. *)
Lemma C8_counterexample : ~ refresh_failure_returns_absent.
Proof.
  intros H.
  specialize (H unreachable_world alice (initialized unreachable_world)
                "1//gAAAA-1" (Exn OtherError "TransportError: connection reset")).
  specialize (H eq_refl ltac:(repeat split) eq_refl eq_refl).
  vm_compute in H. discriminate H.
Qed.

(** A revoked grant: the user is counted as failed, as after a
    decryption failure. *)
Lemma C8_witness :
  snd (get_google_credentials revoked_world alice (initialized revoked_world)) = Ok None
  /\ errors (stats (fst (run_user revoked_world 1 0 (RowDict alice)
                           (initialized revoked_world)))) =
     ["User a@x.org: credential/auth failure"].
Proof.
  destruct (C8_refresh_failure revoked_world alice (initialized revoked_world) "1//gAAAA-1"
              (Exn RefreshError "invalid_grant: Token has been expired or revoked.") 1 0)
    as (Hrefresh & _ & _).
  - reflexivity.
  - repeat split.
  - reflexivity.
  - reflexivity.
  - destruct (Hrefresh eq_refl) as (Hgc & _ & _ & Hstats).
    split; [now rewrite Hgc | now rewrite Hstats].
Defined.

(** The table holds no user with the calendar connected. *)
Lemma C9_witness :
  snd (run empty_table_world (__init__ true)) = Ok true
  /\ stats (fst (run empty_table_world (__init__ true))) = init_stats
  /\ main empty_table_world true = 0%Z.
Proof.
  destruct (C9_zero_users empty_table_world true {| sb_execute := Ok (Some []) |})
    as (Hres & Hstats & _ & Hexit).
  - reflexivity.
  - reflexivity.
  - right. reflexivity.
  - auto.
Defined.

(** * Further properties of the script *)

(** ** Deletion, request by request *)

Lemma delete_loop_live_exact (svc : service) (events : list found_event) :
  forall c self, dry_run self = false ->
    delete_loop svc events c self =
    (emit_all (map EffDelete (map f_id events)) self,
     Ok (c + count_deleted (events_delete svc) events)).
Proof.
  induction events as [|ev l IH]; intros c self Hlive.
  - simpl. unfold ret, count_deleted. simpl. now rewrite emit_all_nil, Nat.add_0_r.
  - simpl. munfold. rewrite Hlive. cbn.
    unfold count_deleted. simpl.
    destruct (events_delete svc (f_id ev)) as [[]|e]; cbn;
      rewrite IH by exact Hlive;
      change (with_trace ?e self) with (emit_all [e] self);
      rewrite emit_all_app; simpl; unfold count_deleted; f_equal; f_equal; lia.
Qed.

(** [delete_events] never raises.  In a dry run it issues nothing and
    counts every event.  In a live run it issues one deletion request per
    event, in the order of the list, whether or not earlier requests
    failed, and counts the requests that succeeded. *)
Theorem delete_events_outcome (svc : service) (events : list found_event)
    (self : CalendarCleanup) :
  delete_events svc events self =
  (if dry_run self then (self, Ok (List.length events))
   else (emit_all (map EffDelete (map f_id events)) self,
         Ok (count_deleted (events_delete svc) events)))
  /\ count_deleted (events_delete svc) events <= List.length events.
Proof.
  split.
  - unfold delete_events. destruct (dry_run self) eqn:Hdry.
    + now rewrite delete_loop_dry_run.
    + now rewrite delete_loop_live_exact.
  - unfold count_deleted. apply filter_length_le.
Qed.

(** ** What discovery hands to deletion *)

Lemma pattern_loop_provenance (svc : service) (t1 t2 : Z) (patterns : list string) :
  forall events_found, exists items,
    fst (pattern_loop svc t1 t2 patterns events_found) = scan_events events_found items
    /\ forall r, In r items ->
         exists q, In q patterns /\ In r (pages_items (events_list svc q t1 t2)).
Proof.
  induction patterns as [|p l IH]; intros acc.
  - exists []. split; [reflexivity | intros r []].
  - simpl. rewrite page_loop_spec.
    destruct (pages_error (events_list svc p t1 t2)).
    + exists (pages_items (events_list svc p t1 t2)). split; [reflexivity|].
      intros r Hr. exists p. split; [now left | assumption].
    + destruct (IH (scan_events acc (pages_items (events_list svc p t1 t2))))
        as (items & Heq & Hprov).
      exists (pages_items (events_list svc p t1 t2) ++ items)%list.
      split; [now rewrite Heq, scan_events_app|].
      intros r Hr. apply in_app_iff in Hr as [Hr|Hr].
      * exists p. split; [now left | assumption].
      * destruct (Hprov r Hr) as (q & Hq & Hin). exists q. split; [now right | assumption].
Qed.

Lemma find_perm_events_invariant (w : World) (svc : service) :
  NoDup (map f_id (find_perm_events w svc))
  /\ forall e, In e (find_perm_events w svc) ->
       exists r, discovered_target w svc r /\ e = entry_of r.
Proof.
  unfold find_perm_events. fold (time_min w). fold (time_max w).
  destruct (pattern_loop_provenance svc (time_min w) (time_max w) EVENT_PATTERNS [])
    as (items & -> & Hprov).
  rewrite scan_events_refines. simpl. split.
  - rewrite map_ids_entry_of. apply dedupe_ids_NoDup.
  - intros e He. apply in_map_iff in He as (r & <- & Hr).
    apply (sublist_In _ _ r (dedupe_sublist _ _)) in Hr.
    apply filter_In in Hr as [Hr Hq].
    exists r. split; [|reflexivity].
    destruct (Hprov r Hr) as (q & Hq' & Hin). exists q. auto.
Qed.

(** Whatever the provider answers, errors included, the events
    [find_perm_events] returns have pairwise distinct ids, and each of them
    is the entry of a raw event that one of the eight searches returned and
    whose summary starts with one of the patterns. *)
Theorem find_perm_events_targets (w : World) (svc : service) :
  NoDup (map f_id (find_perm_events w svc))
  /\ forall e, In e (find_perm_events w svc) ->
       exists r, discovered_target w svc r /\ e = entry_of r.
Proof. exact (find_perm_events_invariant w svc). Qed.

Lemma pattern_loop_ext (svc svc' : service) (t1 t2 : Z) (patterns : list string) :
  (forall q, In q patterns -> events_list svc' q t1 t2 = events_list svc q t1 t2) ->
  forall events_found,
    pattern_loop svc' t1 t2 patterns events_found =
    pattern_loop svc t1 t2 patterns events_found.
Proof.
  intros Hagree. induction patterns as [|p l IH]; intros acc; simpl; [reflexivity|].
  rewrite (Hagree p) by now left.
  destruct (page_loop (events_list svc p t1 t2) acc) as [acc' [e|]]; [reflexivity|].
  apply IH. intros q Hq. apply Hagree. now right.
Qed.

(** [find_perm_events] asks the provider for the eight patterns only,
    and only for the window from 730 days before now to 365 days after
    now: two services that answer these requests alike give the same
    result. *)
Theorem find_perm_events_window (w : World) (svc svc' : service) :
  (forall q, In q EVENT_PATTERNS ->
     events_list svc' q (utcnow w - timedelta_days 730)%Z (utcnow w + timedelta_days 365)%Z =
     events_list svc q (utcnow w - timedelta_days 730)%Z (utcnow w + timedelta_days 365)%Z) ->
  find_perm_events w svc' = find_perm_events w svc.
Proof.
  intros Hagree. unfold find_perm_events.
  now rewrite (pattern_loop_ext svc svc' _ _ _ Hagree).
Qed.

Lemma find_perm_events_window_witness :
  find_perm_events quiet_world window_only_service =
  find_perm_events quiet_world paginated_service.
Proof.
  apply (find_perm_events_window quiet_world paginated_service window_only_service).
  intros q _. reflexivity.
Defined.

(** The pages of a search are followed to the last one: two pages of
    the first search and one of the second, three raw entries, two events
    kept. *)
Lemma find_perm_events_complete_witness :
  find_perm_events quiet_world paginated_service =
  filterAndDedupe [acme_event; acme_event; filing_event]
  /\ map f_id (find_perm_events quiet_world paginated_service) = ["a"; "f"].
Proof.
  assert (find_perm_events quiet_world paginated_service =
          filterAndDedupe (discovered quiet_world paginated_service EVENT_PATTERNS)) as H.
  { apply find_perm_events_complete.
    intros p Hp. simpl in Hp.
    repeat (destruct Hp as [<- | Hp]; [reflexivity|]). destruct Hp. }
  split; [rewrite H; reflexivity | rewrite H; reflexivity].
Defined.

(** ** Credential resolution, the other branches *)

(** When the stored refresh token gives nothing usable (it is absent or
    empty, the key is, the decryption raises, or the plaintext is empty),
    [get_google_credentials] returns [None] and [process_user] returns
    [False]; [self] is untouched: no refresh, no request to the provider,
    no counter moved. *)
Theorem no_refresh_token_no_credentials (w : World) (user_data : gmap string value)
    (self : CalendarCleanup) :
  import_google_auth w = Ok tt ->
  (forall rt, ~ refresh_token_of w (encryption_key self) user_data rt) ->
  get_google_credentials w user_data self = (self, Ok None)
  /\ process_user w user_data self = (self, Ok false).
Proof.
  intros Himp Hnone.
  assert (get_google_credentials w user_data self = (self, Ok None)) as Hgc.
  { unfold get_google_credentials, decrypt_token. munfold. rewrite Himp.
    destruct (truthy (dict_get user_data "google_refresh_token")) eqn:Ht;
      [|reflexivity].
    destruct (opt_truthy (encryption_key self)) eqn:Hk; [|reflexivity].
    cbn.
    destruct (fernet_decrypt w (default "" (encryption_key self))
                (dict_get user_data "google_refresh_token")) as [plain|e] eqn:Hd;
      [|reflexivity].
    cbn. destruct (str_truthy plain) eqn:Hp; [|reflexivity].
    exfalso. apply (Hnone plain). repeat split; assumption. }
  split; [assumption|]. unfold process_user. munfold. now rewrite Hgc.
Qed.

Lemma no_refresh_token_no_credentials_witness :
  process_user quiet_world carol (initialized quiet_world) =
  (initialized quiet_world, Ok false).
Proof.
  apply (no_refresh_token_no_credentials quiet_world carol (initialized quiet_world)).
  - reflexivity.
  - intros rt (_ & _ & Hd & _). discriminate Hd.
Defined.

(** When the recorded expiry parses and lies in the future, no refresh
    is issued: [self] is untouched and the credentials returned carry the
    stored access token, the decrypted refresh token and the client
    identity of [self]. *)
Theorem unexpired_token_is_not_refreshed (w : World) (user_data : gmap string value)
    (self : CalendarCleanup) (rt : string) (dt : datetime) :
  import_google_auth w = Ok tt ->
  refresh_token_of w (encryption_key self) user_data rt ->
  truthy (dict_get user_data "google_token_expiry") = true ->
  parse_expiry w (dict_get user_data "google_token_expiry") = Ok dt ->
  (utcnow w < timestamp w dt)%Z ->
  exists creds,
    get_google_credentials w user_data self = (self, Ok (Some creds))
    /\ token creds = dict_get user_data "google_access_token"
    /\ refresh_token creds = rt
    /\ client_id creds = google_client_id self
    /\ client_secret creds = google_client_secret self.
Proof.
  intros Himp Hrt Ht Hparse Hfuture.
  exists (credentials_of w self user_data rt).
  split; [|repeat split].
  rewrite (get_google_credentials_decrypted w user_data self rt Himp Hrt).
  assert (needs_refresh w (dict_get user_data "google_token_expiry") = false) as ->;
    [|reflexivity].
  unfold needs_refresh. rewrite Ht, (expiry_passed_spec _ _ _ Hparse).
  apply Z.leb_gt. exact Hfuture.
Qed.

Lemma unexpired_token_is_not_refreshed_witness :
  trace (fst (get_google_credentials earlier_world alice (initialized earlier_world))) = []
  /\ is_ok (snd (get_google_credentials earlier_world alice (initialized earlier_world)))
     = true.
Proof.
  destruct (unexpired_token_is_not_refreshed earlier_world alice
              (initialized earlier_world) "1//gAAAA-1"
              {| wall := 1704067200000000; tzinfo := Some 0%Z |})
    as (creds & Hgc & _).
  - reflexivity.
  - repeat split.
  - reflexivity.
  - reflexivity.
  - reflexivity.
  - rewrite Hgc. split; reflexivity.
Defined.

Lemma replace_Z_app (s1 s2 : string) :
  replace_Z (s1 +:+ s2) = replace_Z s1 +:+ replace_Z s2.
Proof.
  induction s1 as [|c s1 IH]; simpl; [reflexivity|].
  rewrite IH. destruct (Ascii.eqb c "Z"); reflexivity.
Qed.

(** An expiry written with the suffix [Z] and the same expiry written
    with the offset [+00:00] get the same refresh decision. *)
Theorem needs_refresh_Z_suffix (w : World) (s : string) :
  needs_refresh w (VStr (s +:+ "Z")) = needs_refresh w (VStr (s +:+ "+00:00")).
Proof.
  unfold needs_refresh, expiry_passed, parse_expiry.
  rewrite !replace_Z_app. simpl replace_Z.
  assert (forall t, truthy (VStr (s +:+ t)) = str_truthy s || str_truthy t) as Htr
    by (intros t; destruct s, t; reflexivity).
  rewrite !Htr. simpl. reflexivity.
Qed.

(** When the calendar service cannot be built for the credentials,
    [process_user] returns [False] and moves no counter. *)
Theorem service_failure_fails_the_user (w : World) (user_data : gmap string value)
    (self self' : CalendarCleanup) (creds : credentials) (e : exn) :
  get_google_credentials w user_data self = (self', Ok (Some creds)) ->
  build w creds = Raise e ->
  process_user w user_data self = (self', Ok false).
Proof.
  intros Hgc Hb. unfold process_user, get_calendar_service. munfold.
  now rewrite Hgc, Hb.
Qed.

Lemma service_failure_fails_the_user_witness :
  snd (process_user no_service_world alice (initialized no_service_world)) = Ok false
  /\ stats (fst (process_user no_service_world alice (initialized no_service_world))) =
     init_stats.
Proof.
  pose proof (service_failure_fails_the_user no_service_world alice
                (initialized no_service_world)
                (fst (get_google_credentials no_service_world alice
                        (initialized no_service_world)))
                (set_token (credentials_of no_service_world (initialized no_service_world)
                              alice "1//gAAAA-1") "ya29.fresh")
                (Exn OtherError "UnknownApiNameOrVersion") eq_refl eq_refl) as H.
  rewrite H. split; reflexivity.
Defined.

(** ** The requests issued for one user *)

Lemma get_google_credentials_refreshes (w : World) (user_data : gmap string value)
    (k cid csec : option string) :
  exists effs r,
    (effs = [] \/ exists rt, effs = [EffRefresh rt]) /\
    forall self, encryption_key self = k -> google_client_id self = cid ->
      google_client_secret self = csec ->
      get_google_credentials w user_data self = (emit_all effs self, r).
Proof.
  destruct (import_google_auth w) as [[]|e] eqn:Himp.
  2: { exists [], (Raise e). split; [now left|]. intros self _ _ _.
       unfold get_google_credentials. munfold. now rewrite Himp, emit_all_nil. }
  destruct (decrypt_token_uniform w (dict_get user_data "google_refresh_token") k)
    as [v Hv].
  destruct (opt_truthy v) eqn:Hrt.
  2: { exists [], (Ok None). split; [now left|]. intros self Hk _ _.
       unfold get_google_credentials. munfold. rewrite Himp, (Hv self Hk), Hrt.
       simpl. now rewrite emit_all_nil. }
  set (creds := make_credentials w cid csec user_data (default "" v)).
  destruct (needs_refresh w (dict_get user_data "google_token_expiry")) eqn:Hneeds.
  2: { exists [], (Ok (Some creds)). split; [now left|]. intros self Hk <- <-.
       unfold get_google_credentials. munfold. rewrite Himp, (Hv self Hk), Hrt.
       simpl. rewrite Hneeds. now rewrite emit_all_nil. }
  exists [EffRefresh (default "" v)],
    (match refresh w creds with
     | Ok fresh => Ok (Some (set_token creds fresh))
     | Raise e => if RefreshError_ (exn_cls e) then Ok None else Raise e
     end).
  split; [right; eauto|]. intros self Hk <- <-.
  unfold get_google_credentials. munfold. rewrite Himp, (Hv self Hk), Hrt.
  simpl. rewrite Hneeds. fold creds.
  destruct (refresh w creds) as [fresh|e]; [reflexivity|].
  destruct (RefreshError_ (exn_cls e)); reflexivity.
Qed.

(** [process_user] in full: at most one refresh, the events of one
    discovery, and in a live run one deletion request for each. *)
Lemma process_user_shape (w : World) (user_data : gmap string value)
    (k cid csec : option string) :
  exists (effs : list effect) (events : list found_event)
         (deleting : string -> result unit) (r : result bool),
    (effs = [] \/ exists rt, effs = [EffRefresh rt]) /\
    (events = [] \/
     exists creds svc, build w creds = Ok svc /\ events = find_perm_events w svc /\
       deleting = events_delete svc) /\
    forall self, encryption_key self = k -> google_client_id self = cid ->
      google_client_secret self = csec ->
      process_user w user_data self =
      if dry_run self then
        (emit_all effs
           (with_stats (bump (List.length events) (List.length events)) self), r)
      else
        (emit_all (effs ++ map EffDelete (map f_id events))
           (with_stats (bump (List.length events) (count_deleted deleting events)) self),
         r).
Proof.
  destruct (get_google_credentials_refreshes w user_data k cid csec)
    as (effs & rc & Heffs & Hgc).
  assert (forall (r : result bool) self,
            (emit_all effs self, r) =
            if dry_run self then (emit_all effs (with_stats (bump 0 0) self), r)
            else (emit_all (effs ++ map EffDelete []) (with_stats (bump 0 0) self), r))
    as Hidle.
  { intros r self. simpl. rewrite app_nil_r, with_stats_bump_0_0.
    now destruct (dry_run self). }
  assert (forall r : result bool,
            (forall self, encryption_key self = k -> google_client_id self = cid ->
               google_client_secret self = csec ->
               process_user w user_data self = (emit_all effs self, r)) ->
            exists (effs : list effect) (events : list found_event)
                   (deleting : string -> result unit) (r : result bool),
              (effs = [] \/ exists rt, effs = [EffRefresh rt]) /\
              (events = [] \/
               exists creds svc, build w creds = Ok svc /\
                 events = find_perm_events w svc /\ deleting = events_delete svc) /\
              forall self, encryption_key self = k -> google_client_id self = cid ->
                google_client_secret self = csec ->
                process_user w user_data self =
                if dry_run self then
                  (emit_all effs
                     (with_stats (bump (List.length events) (List.length events)) self), r)
                else
                  (emit_all (effs ++ map EffDelete (map f_id events))
                     (with_stats (bump (List.length events) (count_deleted deleting events))
                        self), r)) as Hnothing.
  { intros r Hpu. exists effs, [], (fun _ => Ok tt), r.
    split; [assumption|]. split; [now left|]. intros self Hk Hc Hs.
    rewrite (Hpu self Hk Hc Hs). apply Hidle. }
  destruct rc as [[creds|]|e].
  - destruct (build w creds) as [svc|e] eqn:Hb.
    + exists effs, (find_perm_events w svc), (events_delete svc), (Ok true).
      split; [assumption|]. split; [right; eauto|].
      intros self Hk Hc Hs.
      unfold process_user. munfold. rewrite (Hgc self Hk Hc Hs).
      unfold get_calendar_service. munfold. rewrite Hb. cbv beta iota.
      destruct (find_perm_events w svc) as [|ev l] eqn:Hev.
      * simpl. rewrite with_stats_add_found_0. apply Hidle.
      * cbn [List.length Nat.eqb]. unfold delete_events.
        destruct (dry_run self) eqn:Hdry.
        -- rewrite delete_loop_dry_run by exact Hdry. reflexivity.
        -- rewrite delete_loop_live_exact by exact Hdry.
           unfold emit_all, with_stats, bump. cbn. now rewrite app_assoc.
    + apply (Hnothing (Ok false)). intros self Hk Hc Hs.
      unfold process_user. munfold. rewrite (Hgc self Hk Hc Hs).
      unfold get_calendar_service. munfold. now rewrite Hb.
  - apply (Hnothing (Ok false)). intros self Hk Hc Hs.
    unfold process_user. munfold. now rewrite (Hgc self Hk Hc Hs).
  - apply (Hnothing (Raise e)). intros self Hk Hc Hs.
    unfold process_user. munfold. now rewrite (Hgc self Hk Hc Hs).
Qed.

(** ** The whole run, request by request *)

Lemma run_user_shape (w : World) (user : row) (k cid csec : option string) :
  exists (effs : list effect) (events : list found_event)
         (deleting : string -> result unit) (failure : option string),
    (effs = [] \/ exists rt, effs = [EffRefresh rt]) /\
    forall total i self, encryption_key self = k -> google_client_id self = cid ->
      google_client_secret self = csec ->
      run_user w total i user self =
      if dry_run self then
        (emit_all (effs ++ pacing total i)
           (with_stats (fun s => settle failure
                                   (bump (List.length events) (List.length events)
                                      (incr_processed s))) self), Ok tt)
      else
        (emit_all ((effs ++ map EffDelete (map f_id events)) ++ pacing total i)
           (with_stats (fun s => settle failure
                                   (bump (List.length events)
                                      (count_deleted deleting events)
                                      (incr_processed s))) self), Ok tt).
Proof.
  destruct (process_user_shape w (user_dict_of user) k cid csec)
    as (effs & events & deleting & r & Heffs & _ & Hpu).
  exists effs, events, deleting,
    (match r with
     | Ok true => None
     | Ok false => Some ("User " +:+ user_email_of user +:+ ": credential/auth failure")
     | Raise e => Some ("User " +:+ user_email_of user +:+ ": " +:+ exn_str e)
     end).
  split; [assumption|].
  intros total i self Hk Hc Hs. unfold run_user, pacing. munfold.
  rewrite (Hpu (with_stats incr_processed self) Hk Hc Hs).
  cbn [dry_run with_stats].
  destruct (dry_run self), r as [[|]|e], (Nat.ltb i (total - 1)); cbn;
    unfold emit_all, with_stats, with_trace; cbn;
    rewrite ?app_nil_r, <- ?app_assoc; reflexivity.
Qed.

Lemma deleted_ids_app (t1 t2 : list effect) :
  deleted_ids (t1 ++ t2) = (deleted_ids t1 ++ deleted_ids t2)%list.
Proof. apply flat_map_app. Qed.

Lemma deleted_ids_deletes (ids : list string) : deleted_ids (map EffDelete ids) = ids.
Proof. induction ids as [|i l IH]; simpl; [reflexivity | now rewrite IH]. Qed.

Lemma deleted_ids_pacing (n i : nat) : deleted_ids (pacing n i) = [].
Proof. unfold pacing. now destruct (Nat.ltb i (n - 1)). Qed.

Lemma sleeps_app (t1 t2 : list effect) : sleeps (t1 ++ t2) = sleeps t1 + sleeps t2.
Proof. unfold sleeps. now rewrite List.filter_app, length_app. Qed.

Lemma sleeps_deletes (ids : list string) : sleeps (map EffDelete ids) = 0.
Proof. induction ids as [|i l IH]; [reflexivity | exact IH]. Qed.

Lemma keep_app (t1 t2 : list effect) :
  List.filter (fun e => negb (is_delete e)) (t1 ++ t2) =
  (List.filter (fun e => negb (is_delete e)) t1 ++
   List.filter (fun e => negb (is_delete e)) t2)%list.
Proof. apply List.filter_app. Qed.

Lemma keep_deletes (ids : list string) :
  List.filter (fun e => negb (is_delete e)) (map EffDelete ids) = [].
Proof. induction ids as [|i l IH]; [reflexivity | exact IH]. Qed.

Lemma keep_pacing (n i : nat) :
  List.filter (fun e => negb (is_delete e)) (pacing n i) = pacing n i.
Proof. unfold pacing. now destruct (Nat.ltb i (n - 1)). Qed.

Lemma run_user_trace_pair (w : World) (n i : nat) (user : row) (sd sl : CalendarCleanup) :
  parity w sd sl ->
  trace sd = List.filter (fun e => negb (is_delete e)) (trace sl) ->
  trace (fst (run_user w n i user sd)) =
  List.filter (fun e => negb (is_delete e)) (trace (fst (run_user w n i user sl))).
Proof.
  intros P Ht.
  destruct (run_user_shape w user (encryption_key sd) (google_client_id sd)
              (google_client_secret sd))
    as (effs & events & deleting & failure & Heffs & Hru).
  rewrite (Hru n i sd eq_refl eq_refl eq_refl).
  rewrite (Hru n i sl (eq_sym (par_key _ _ _ P)) (eq_sym (par_cid _ _ _ P))
             (eq_sym (par_csec _ _ _ P))).
  rewrite (par_dry _ _ _ P), (par_live _ _ _ P). cbn [fst trace emit_all with_stats].
  rewrite !keep_app, keep_deletes, keep_pacing, <- Ht, app_nil_r.
  destruct Heffs as [-> | [rt ->]]; reflexivity.
Qed.

Lemma run_users_trace_pair (w : World) (n : nat) (users : list row) :
  forall i sd sl, parity w sd sl ->
    trace sd = List.filter (fun e => negb (is_delete e)) (trace sl) ->
    trace (fst (run_users w n i users sd)) =
    List.filter (fun e => negb (is_delete e)) (trace (fst (run_users w n i users sl))).
Proof.
  induction users as [|user rest IH]; intros i sd sl P Ht; simpl; [assumption|].
  unfold bind.
  pose proof (run_user_parity w n i user sd sl P) as Pstep.
  pose proof (run_user_trace_pair w n i user sd sl P Ht) as Tstep.
  pose proof (run_user_frame w n i user sd) as Hd. cbv zeta in Hd.
  pose proof (run_user_frame w n i user sl) as Hl. cbv zeta in Hl.
  destruct (run_user w n i user sd) as [sd' rd].
  destruct (run_user w n i user sl) as [sl' rl].
  cbn [fst snd] in *. destruct Hd as (-> & _). destruct Hl as (-> & _).
  now apply IH.
Qed.

(** What a dry run issues is what the live run issues, minus the
    deletions: same refreshes, same pauses, in the same order. *)
Theorem dry_run_trace_is_live_trace_without_deletions (w : World) :
  trace (fst (run w (__init__ true))) =
  List.filter (fun e => negb (is_delete e)) (trace (fst (run w (__init__ false)))).
Proof.
  rewrite !run_unfold.
  destruct (initialize_uniform w) as (r & sbo & Hinit). rewrite !Hinit.
  set (sd := configured _ _ _ _ (__init__ true)).
  set (sl := configured _ _ _ _ (__init__ false)).
  assert (parity w sd sl) as P by (constructor; cbn; try reflexivity; tauto).
  assert (trace sd = List.filter (fun e => negb (is_delete e)) (trace sl)) as Ht
    by reflexivity.
  destruct r as [[|]|e]; cbn [fst snd]; try exact Ht.
  destruct (query_users_uniform w (supabase sd)) as [users Hq].
  rewrite (Hq sd eq_refl), (Hq sl (eq_sym (par_supabase _ _ _ P))). cbn [snd].
  destruct users as [[|u us]|]; cbn [fst snd]; try exact Ht.
  now apply run_users_trace_pair.
Qed.

(** ** Fatal errors *)

Lemma missing_vars_nil (w : World) :
  missing_vars w = [] <-> configuration_complete w = true.
Proof.
  unfold missing_vars, configuration_complete, missing.
  destruct (opt_truthy (environ w !! "SUPABASE_URL")),
           (opt_truthy (environ w !! "SUPABASE_KEY")),
           (opt_truthy (environ w !! "ENCRYPTION_KEY")),
           (opt_truthy (environ w !! "GOOGLE_CLIENT_ID")),
           (opt_truthy (environ w !! "GOOGLE_CLIENT_SECRET"));
    simpl; split; (reflexivity || discriminate).
Qed.

Lemma initialize_cases (w : World) (self : CalendarCleanup) :
  initialize w self =
  let self1 := configured (supabase self) (environ w !! "ENCRYPTION_KEY")
                 (environ w !! "GOOGLE_CLIENT_ID") (environ w !! "GOOGLE_CLIENT_SECRET")
                 self in
  match missing_vars w with
  | _ :: _ => (self1, Ok false)
  | [] =>
      match create_client w (default "" (environ w !! "SUPABASE_URL"))
              (default "" (environ w !! "SUPABASE_KEY")) with
      | Raise _ => (self1, Ok false)
      | Ok c =>
          let self2 := configured (Some c) (environ w !! "ENCRYPTION_KEY")
                         (environ w !! "GOOGLE_CLIENT_ID")
                         (environ w !! "GOOGLE_CLIENT_SECRET") self in
          match import_google_api w with
          | Ok _ => (self2, Ok true)
          | Raise e => if ImportError_ (exn_cls e) then (self2, Ok false)
                       else (self2, Raise e)
          end
      end
  end.
Proof.
  unfold initialize, set_env_attrs, set_supabase. munfold. cbn.
  fold (missing_vars w). destruct (missing_vars w); [|reflexivity].
  destruct (create_client w _ _) as [c|e]; cbn; [|reflexivity].
  destruct (import_google_api w) as [[]|e]; cbn; [reflexivity|].
  destruct (ImportError_ (exn_cls e)); reflexivity.
Qed.

(** [initialize] returns [True] iff the five variables are set and
    non-empty, the Supabase client can be created and the Google libraries
    import.  It always copies the key and the client identity from the
    environment into [self], and on success [self.supabase] is the client
    created from the URL and the service key. *)
Theorem initialize_succeeds_iff (w : World) (self : CalendarCleanup) :
  (snd (initialize w self) = Ok true <->
     configuration_complete w = true
     /\ is_ok (create_client w (default "" (environ w !! "SUPABASE_URL"))
                 (default "" (environ w !! "SUPABASE_KEY"))) = true
     /\ import_google_api w = Ok tt)
  /\ encryption_key (fst (initialize w self)) = environ w !! "ENCRYPTION_KEY"
  /\ google_client_id (fst (initialize w self)) = environ w !! "GOOGLE_CLIENT_ID"
  /\ google_client_secret (fst (initialize w self)) = environ w !! "GOOGLE_CLIENT_SECRET"
  /\ (snd (initialize w self) = Ok true ->
      exists c, supabase (fst (initialize w self)) = Some c /\
        create_client w (default "" (environ w !! "SUPABASE_URL"))
          (default "" (environ w !! "SUPABASE_KEY")) = Ok c).
Proof.
  rewrite initialize_cases. cbv zeta.
  pose proof (missing_vars_nil w) as Hm.
  destruct (missing_vars w) as [|m ms].
  - rewrite (proj1 Hm eq_refl).
    destruct (create_client w _ _) as [c|e]; cbn [is_ok].
    + destruct (import_google_api w) as [[]|e].
      * cbn. split; [split; [intros _; repeat split | reflexivity]|].
        do 3 (split; [reflexivity|]). intros _. exists c. split; reflexivity.
      * destruct (ImportError_ (exn_cls e)); cbn;
          (split; [split; [discriminate | intros (_ & _ & H); discriminate]|]);
          do 3 (split; [reflexivity|]); discriminate.
    + cbn. split; [split; [discriminate | intros (_ & H & _); discriminate]|].
      do 3 (split; [reflexivity|]). discriminate.
  - assert (configuration_complete w <> true) as Hc
      by (intros H; apply Hm in H; discriminate).
    cbn. split; [split; [discriminate | intros (H & _); contradiction]|].
    do 3 (split; [reflexivity|]). discriminate.
Qed.

Lemma initialize_succeeds_iff_witness :
  snd (initialize one_user_world (__init__ false)) = Ok true
  /\ encryption_key (initialized one_user_world) = Some "fernet-key".
Proof.
  destruct (initialize_succeeds_iff one_user_world (__init__ false))
    as (Hiff & Hkey & _).
  split; [|exact Hkey].
  apply Hiff. repeat split.
Defined.

(** A missing or empty variable is fatal: [run] returns [False] and
    the exit status is 1; no Supabase client is created, no user is
    processed, nothing is issued. *)
Theorem configuration_error_is_fatal (w : World) (dry_run_flag : bool) :
  configuration_complete w = false ->
  snd (run w (__init__ dry_run_flag)) = Ok false
  /\ main w dry_run_flag = 1%Z
  /\ supabase (fst (run w (__init__ dry_run_flag))) = None
  /\ stats (fst (run w (__init__ dry_run_flag))) = init_stats
  /\ trace (fst (run w (__init__ dry_run_flag))) = [].
Proof.
  intros Hc. unfold main. rewrite run_unfold, initialize_cases. cbv zeta.
  pose proof (missing_vars_nil w) as Hm.
  destruct (missing_vars w) as [|m ms].
  - rewrite (proj1 Hm eq_refl) in Hc. discriminate.
  - cbn. repeat split.
Qed.

Lemma configuration_error_is_fatal_witness :
  main unconfigured_world false = 1%Z
  /\ missing_vars unconfigured_world = ["ENCRYPTION_KEY"].
Proof.
  destruct (configuration_error_is_fatal unconfigured_world false) as (_ & H & _).
  - reflexivity.
  - split; [exact H | reflexivity].
Defined.

(** A failure of the query is fatal: once [initialize] succeeded, if the
    query raises, [run] returns [False] and the exit status is 1; no user
    is processed and nothing is issued. *)
Theorem query_failure_is_fatal (w : World) (dry_run_flag : bool)
    (client : supabase_client) (e : exn) :
  snd (initialize w (__init__ dry_run_flag)) = Ok true ->
  supabase (fst (initialize w (__init__ dry_run_flag))) = Some client ->
  sb_execute client = Raise e ->
  snd (run w (__init__ dry_run_flag)) = Ok false
  /\ main w dry_run_flag = 1%Z
  /\ stats (fst (run w (__init__ dry_run_flag))) = init_stats
  /\ trace (fst (run w (__init__ dry_run_flag))) = [].
Proof.
  intros Hinit Hsb Hq.
  pose proof (initialize_frame w (__init__ dry_run_flag)) as (_ & Hstats & Htrace).
  unfold main. rewrite run_unfold.
  destruct (initialize w (__init__ dry_run_flag)) as [s1 r1]. cbn [fst snd] in *.
  subst r1.
  assert (snd (query_users w s1) = Ok None) as ->.
  { unfold query_users. munfold. rewrite Hsb. cbv beta iota. now rewrite Hq. }
  cbn. auto.
Qed.

Lemma query_failure_is_fatal_witness :
  main unreadable_table_world false = 1%Z
  /\ stats (fst (run unreadable_table_world (__init__ false))) = init_stats.
Proof.
  destruct (query_failure_is_fatal unreadable_table_world false
              {| sb_execute := Raise (Exn OtherError "APIError: permission denied") |}
              (Exn OtherError "APIError: permission denied"))
    as (_ & Hexit & Hstats & _).
  - reflexivity.
  - reflexivity.
  - reflexivity.
  - split; assumption.
Defined.

(** ** Rows that are not usable *)

(** A row without a refresh token (the key is missing or null, or the
    row is not a dict at all) is counted as processed and failed with the
    entry "credential/auth failure"; nothing is issued for it but the
    pause.  A row that is not a dict is reported under the email
    [unknown]. *)
Theorem row_without_refresh_token_fails (w : World) (n i : nat) (user : row)
    (self : CalendarCleanup) :
  import_google_auth w = Ok tt ->
  dict_get (user_dict_of user) "google_refresh_token" = VNone ->
  run_user w n i user self =
    (emit_all (pacing n i)
       (with_stats (fun s => record_failure (error_entry user "credential/auth failure")
                               (incr_processed s)) self), Ok tt)
  /\ error_entry RowOther "credential/auth failure" =
     "User unknown: credential/auth failure".
Proof.
  intros Himp Hnone. split; [|reflexivity].
  unfold run_user, process_user, get_google_credentials, decrypt_token, pacing. munfold.
  rewrite Himp, Hnone.
  destruct (Nat.ltb i (n - 1)); cbn; unfold emit_all, with_stats, with_trace; cbn;
    now rewrite ?app_nil_r.
Qed.

Lemma row_without_refresh_token_fails_witness :
  errors (stats (fst (run_user quiet_world 1 0 RowOther (initialized quiet_world)))) =
  ["User unknown: credential/auth failure"].
Proof.
  destruct (row_without_refresh_token_fails quiet_world 1 0 RowOther
              (initialized quiet_world)) as [H _].
  - reflexivity.
  - reflexivity.
  - rewrite H. reflexivity.
Defined.

(** ** Where exceptions can come from *)

Lemma get_google_credentials_raises (w : World) (user_data : gmap string value)
    (self : CalendarCleanup) (e : exn) :
  snd (get_google_credentials w user_data self) = Raise e ->
  import_google_auth w = Raise e
  \/ (exists creds, refresh w creds = Raise e /\ exn_cls e <> RefreshError).
Proof.
  unfold get_google_credentials. munfold.
  destruct (import_google_auth w) as [[]|e0]; [|cbn; intros [= ->]; now left].
  destruct (decrypt_token_uniform w (dict_get user_data "google_refresh_token")
              (encryption_key self)) as [v Hv].
  rewrite (Hv self eq_refl).
  destruct (negb (opt_truthy v)); [discriminate|].
  destruct (needs_refresh w _); [|discriminate].
  cbn.
  match goal with |- context [refresh w ?c] => destruct (refresh w c) as [fresh|e0] eqn:Hr end;
    [discriminate|].
  destruct (RefreshError_ (exn_cls e0)) eqn:Hcls; cbn; [discriminate|].
  intros [= ->]. right. eexists. split; [exact Hr|].
  intros Heq. rewrite Heq in Hcls. discriminate.
Qed.

(** [process_user] raises only an exception of the Google auth import
    or an exception of the token refresh that is not a [RefreshError]:
    failures of decryption, of the service construction, of listing and of
    deletion never leave it. *)
Theorem process_user_raises_only_from_auth (w : World) (user_data : gmap string value)
    (self : CalendarCleanup) (e : exn) :
  snd (process_user w user_data self) = Raise e ->
  import_google_auth w = Raise e
  \/ (exists creds, refresh w creds = Raise e /\ exn_cls e <> RefreshError).
Proof.
  intros Hraise. apply (get_google_credentials_raises w user_data self).
  revert Hraise. unfold process_user, get_calendar_service. munfold.
  destruct (get_google_credentials w user_data self) as [s1 [[creds|]|e0]]; cbn.
  - destruct (build w creds) as [svc|e1]; cbn; [|discriminate].
    destruct (Nat.eqb (List.length (find_perm_events w svc)) 0); [discriminate|].
    unfold delete_events.
    destruct (dry_run (with_stats (add_found (List.length (find_perm_events w svc))) s1))
      eqn:Hdry.
    + rewrite delete_loop_dry_run by exact Hdry. discriminate.
    + rewrite delete_loop_live_exact by exact Hdry. discriminate.
  - discriminate.
  - intros [= ->]. reflexivity.
Qed.

Lemma process_user_raises_only_from_auth_witness :
  exists creds,
    refresh unreachable_world creds =
      Raise (Exn OtherError "TransportError: connection reset").
Proof.
  destruct (process_user_raises_only_from_auth unreachable_world alice
              (initialized unreachable_world)
              (Exn OtherError "TransportError: connection reset") eq_refl)
    as [Himp | (creds & Hr & _)].
  - discriminate Himp.
  - exists creds. exact Hr.
Defined.

(** [run] raises only when the import test of [initialize] raises
    something that is not an [ImportError]; in particular it does not
    raise once the loop over the users is reached. *)
Theorem run_raises_only_from_import (w : World) (self : CalendarCleanup) (e : exn) :
  snd (run w self) = Raise e ->
  import_google_api w = Raise e /\ exn_cls e <> ImportError.
Proof.
  rewrite run_unfold, initialize_cases. cbv zeta.
  destruct (missing_vars w); [|discriminate].
  destruct (create_client w _ _) as [c|e0]; [|discriminate].
  destruct (import_google_api w) as [[]|e0].
  - destruct (snd (query_users w _)) as [[[|u us]|]|e1]; discriminate.
  - destruct (ImportError_ (exn_cls e0)) eqn:Hcls; [discriminate|].
    cbn. intros [= ->]. split; [reflexivity|].
    intros Heq. rewrite Heq in Hcls. discriminate.
Qed.

Lemma run_raises_only_from_import_witness :
  import_google_api broken_import_world =
    Raise (Exn OtherError "SyntaxError: invalid syntax")
  /\ main broken_import_world false = 1%Z.
Proof.
  destruct (run_raises_only_from_import broken_import_world (__init__ false)
              (Exn OtherError "SyntaxError: invalid syntax") eq_refl) as [H _].
  split; [exact H | reflexivity].
Defined.

(** ** Every user is counted *)

(** When the loop is reached, every user the query returned is counted
    once: at the end [users_processed] is the number of rows, and so is the
    sum of [users_successful] and [users_failed]. *)
Theorem every_queried_user_is_counted (w : World) (dry_run_flag : bool)
    (users : list row) :
  snd (initialize w (__init__ dry_run_flag)) = Ok true ->
  snd (query_users w (fst (initialize w (__init__ dry_run_flag)))) = Ok (Some users) ->
  users_processed (stats (fst (run w (__init__ dry_run_flag)))) = List.length users
  /\ users_successful (stats (fst (run w (__init__ dry_run_flag)))) +
     users_failed (stats (fst (run w (__init__ dry_run_flag)))) = List.length users.
Proof.
  intros Hinit Hquery.
  pose proof (initialize_frame w (__init__ dry_run_flag)) as (_ & Hstats & _).
  rewrite run_unfold.
  destruct (initialize w (__init__ dry_run_flag)) as [s1 r1]. cbn [fst snd] in *.
  subst r1. rewrite Hquery.
  destruct users as [|u us]; cbn [fst]; [now rewrite Hstats|].
  pose proof (run_users_frame w (List.length (u :: us)) (u :: us) 0 s1) as Hf.
  cbv zeta in Hf. destruct Hf as (_ & _ & _ & _ & _ & _ & Hp & Hcons).
  rewrite Hstats in Hp, Hcons.
  destruct Hcons as [Hsum _]; [split; simpl; lia|].
  cbv zeta. rewrite <- Hsum, Hp. split; reflexivity.
Qed.

Lemma every_queried_user_is_counted_witness :
  users_processed (stats (fst (run one_user_world (__init__ false)))) = 1.
Proof.
  destruct (every_queried_user_is_counted one_user_world false [RowDict alice])
    as [H _].
  - reflexivity.
  - reflexivity.
  - exact H.
Defined.

(** * The run, user by user *)

(** ** One user, exactly *)

Lemma get_google_credentials_exact (w : World) (user_data : gmap string value)
    (self : CalendarCleanup) :
  get_google_credentials w user_data self =
    (emit_all (user_refreshes w self user_data) self,
     snd (get_google_credentials w user_data self))
  /\ (user_refreshes w self user_data = [] \/
      exists rt, user_refreshes w self user_data = [EffRefresh rt])
  /\ forall self', same_config self self' ->
       snd (get_google_credentials w user_data self') =
         snd (get_google_credentials w user_data self)
       /\ user_refreshes w self' user_data = user_refreshes w self user_data.
Proof.
  destruct (get_google_credentials_refreshes w user_data (encryption_key self)
              (google_client_id self) (google_client_secret self))
    as (effs & r & Heffs & Hgc).
  assert (forall s, encryption_key s = encryption_key self ->
            google_client_id s = google_client_id self ->
            google_client_secret s = google_client_secret self ->
            user_refreshes w s user_data = effs) as Hr.
  { intros s Hk Hc Hs. unfold user_refreshes. rewrite (Hgc s Hk Hc Hs).
    cbn [fst trace emit_all]. apply drop_app_length. }
  split; [|split].
  - rewrite (Hr self eq_refl eq_refl eq_refl), (Hgc self eq_refl eq_refl eq_refl).
    reflexivity.
  - now rewrite (Hr self eq_refl eq_refl eq_refl).
  - intros self' (Hk & Hc & Hs).
    rewrite (Hr self' (eq_sym Hk) (eq_sym Hc) (eq_sym Hs)),
            (Hr self eq_refl eq_refl eq_refl).
    rewrite (Hgc self' (eq_sym Hk) (eq_sym Hc) (eq_sym Hs)),
            (Hgc self eq_refl eq_refl eq_refl).
    split; reflexivity.
Qed.

(** What is read off the world for a user depends on the key and the
    client identity of [self] only. *)
Lemma user_functions_config (w : World) (self self' : CalendarCleanup)
    (user_data : gmap string value) :
  same_config self self' ->
  user_service w self' user_data = user_service w self user_data
  /\ user_events w self' user_data = user_events w self user_data
  /\ user_deleted w self' user_data = user_deleted w self user_data
  /\ user_result w self' user_data = user_result w self user_data
  /\ forall dr, user_calls w self' dr user_data = user_calls w self dr user_data.
Proof.
  intros Hcfg.
  destruct (get_google_credentials_exact w user_data self) as (_ & _ & Hinv).
  destruct (Hinv self' Hcfg) as [Hsnd Hrefr].
  unfold user_calls, user_events, user_deleted, user_service, user_result.
  rewrite Hsnd, Hrefr. repeat split.
Qed.

Lemma user_failure_config (w : World) (self self' : CalendarCleanup) (user : row) :
  same_config self self' -> user_failure w self' user = user_failure w self user.
Proof.
  intros Hcfg. unfold user_failure.
  destruct (user_functions_config w self self' (user_dict_of user) Hcfg)
    as (_ & _ & _ & -> & _).
  reflexivity.
Qed.

Lemma process_user_exact (w : World) (user_data : gmap string value)
    (self : CalendarCleanup) :
  process_user w user_data self =
  (emit_all (user_calls w self (dry_run self) user_data)
     (with_stats
        (bump (List.length (user_events w self user_data))
           (if dry_run self then List.length (user_events w self user_data)
            else user_deleted w self user_data)) self),
   user_result w self user_data).
Proof.
  destruct (get_google_credentials_exact w user_data self) as (Hgc & _ & _).
  unfold user_calls, user_events, user_deleted, user_service, user_result.
  unfold process_user, get_calendar_service. munfold. rewrite Hgc. cbn [fst snd].
  set (effs := user_refreshes w self user_data).
  assert (forall r : result bool,
            (emit_all effs self, r) =
            (emit_all (effs ++ (if dry_run self then [] else map EffDelete (map f_id [])))
               (with_stats (bump 0 (if dry_run self then 0 else 0)) self), r)) as Hidle.
  { intros r. simpl. destruct (dry_run self); simpl;
      now rewrite app_nil_r, with_stats_bump_0_0. }
  destruct (snd (get_google_credentials w user_data self)) as [[creds|]|e];
    cbv beta iota; try apply Hidle.
  destruct (build w creds) as [svc|e]; cbv beta iota; [|apply Hidle].
  destruct (find_perm_events w svc) as [|ev l] eqn:Hev.
  - simpl. rewrite with_stats_add_found_0. apply Hidle.
  - cbn [List.length Nat.eqb]. unfold delete_events.
    destruct (dry_run self) eqn:Hdry.
    + rewrite delete_loop_dry_run by exact Hdry.
      unfold emit_all, with_stats, bump. cbn.
      now rewrite !app_nil_r.
    + rewrite delete_loop_live_exact by exact Hdry.
      unfold emit_all, with_stats, bump. cbn. now rewrite app_assoc.
Qed.

Lemma run_user_exact (w : World) (n i : nat) (user : row) (self : CalendarCleanup) :
  run_user w n i user self =
  (emit_all (user_calls w self (dry_run self) (user_dict_of user) ++ pacing n i)
     (with_stats
        (fun s =>
           settle (user_failure w self user)
             (bump (List.length (user_events w self (user_dict_of user)))
                (if dry_run self then List.length (user_events w self (user_dict_of user))
                 else user_deleted w self (user_dict_of user))
                (incr_processed s))) self),
   Ok tt).
Proof.
  assert (same_config self (with_stats incr_processed self)) as Hcfg
    by (repeat split).
  destruct (user_functions_config w self _ (user_dict_of user) Hcfg)
    as (_ & He & Hd & Hr & Hc).
  unfold run_user, pacing, user_failure, error_entry. munfold.
  rewrite process_user_exact, He, Hd, Hr, Hc. cbn [dry_run with_stats].
  destruct (user_result w self (user_dict_of user)) as [[|]|e],
           (Nat.ltb i (n - 1)); cbn;
    unfold emit_all, with_stats, with_trace; cbn;
    rewrite ?app_nil_r, <- ?app_assoc; reflexivity.
Qed.

(** ** The loop, exactly *)

Lemma run_users_exact (w : World) (n : nat) (s0 : CalendarCleanup) (users : list row) :
  forall i self, same_config s0 self ->
  let final := fst (run_users w n i users self) in
  trace final =
    (trace self ++
     paced n i (map (fun u => user_calls w s0 (dry_run self) (user_dict_of u)) users))%list
  /\ errors (stats final) = (errors (stats self) ++ failure_entries w s0 users)%list
  /\ users_failed (stats final) =
     users_failed (stats self) + List.length (failure_entries w s0 users)
  /\ users_successful (stats final) + List.length (failure_entries w s0 users) =
     users_successful (stats self) + List.length users
  /\ total_events_found (stats final) =
     total_events_found (stats self) +
     list_sum (map (fun u => List.length (user_events w s0 (user_dict_of u))) users)
  /\ total_events_deleted (stats final) =
     total_events_deleted (stats self) +
     list_sum (map (fun u => if dry_run self
                             then List.length (user_events w s0 (user_dict_of u))
                             else user_deleted w s0 (user_dict_of u)) users).
Proof.
  induction users as [|user rest IH]; intros i self Hcfg; cbv zeta.
  - simpl. rewrite !app_nil_r, !Nat.add_0_r. repeat split.
  - simpl run_users. unfold bind. rewrite run_user_exact.
    destruct (user_functions_config w s0 self (user_dict_of user) Hcfg)
      as (_ & He & Hd & _ & Hc).
    rewrite (user_failure_config w s0 self user Hcfg), He, Hd, Hc.
    match goal with |- context [run_users w n (S i) rest ?s] => set (s1 := s) end.
    assert (same_config s0 s1) as Hcfg1 by exact Hcfg.
    specialize (IH (S i) s1 Hcfg1). cbv zeta in IH.
    destruct IH as (Ht & Her & Hf & Hs & Hfo & Hde).
    rewrite Ht, Her, Hf, Hfo, Hde. clear Ht Her Hf Hfo Hde.
    unfold failure_entries in *.
    assert (users_successful (stats s1) + List.length
              (match user_failure w s0 user with Some m => [m] | None => [] end) =
            users_successful (stats self) + 1) as Hs1
      by (subst s1; destruct (user_failure w s0 user); cbn; lia).
    subst s1. cbn.
    destruct (user_failure w s0 user); cbn in *;
      rewrite ?length_app, <- ?app_assoc; cbn;
      (repeat split; try (unfold list_sum; lia)).
Qed.

Lemma paced_interleave (n : nat) (blocks : list (list effect)) :
  forall i, i + List.length blocks = n ->
    paced n i blocks = interleave [EffSleep 1] blocks.
Proof.
  induction blocks as [|b rest IH]; intros i Hn; [reflexivity|].
  simpl in Hn. cbn [paced]. rewrite (IH (S i)) by lia. unfold pacing.
  destruct rest as [|b' rest].
  - simpl in Hn. replace (Nat.ltb i (n - 1)) with false
      by (symmetry; apply Nat.ltb_ge; lia).
    simpl. now rewrite app_nil_r.
  - simpl in Hn. replace (Nat.ltb i (n - 1)) with true
      by (symmetry; apply Nat.ltb_lt; lia).
    reflexivity.
Qed.

(** [run] ends in the state the loop over the queried rows leaves,
    started from the state [initialize] leaves; that state has the
    configuration of [initialized w], the chosen mode, the initial
    statistics and an empty trace. *)
Lemma run_state (w : World) (dry_run_flag : bool) :
  let start := fst (initialize w (__init__ dry_run_flag)) in
  fst (run w (__init__ dry_run_flag)) =
    fst (run_users w (List.length (queried_users w)) 0 (queried_users w) start)
  /\ same_config (initialized w) start
  /\ dry_run start = dry_run_flag
  /\ stats start = init_stats
  /\ trace start = [].
Proof.
  cbv zeta. rewrite run_unfold. unfold queried_users, initialized.
  destruct (initialize_uniform w) as (r & sbo & Hinit). rewrite !Hinit.
  cbn [fst snd].
  split; [|repeat split].
  destruct r as [[|]|e]; try reflexivity.
  destruct (query_users_uniform w (match sbo with Some c => Some c | None => None end))
    as [users Hq].
  rewrite !Hq by reflexivity. cbn [snd].
  destruct users as [[|u us]|]; reflexivity.
Qed.

(** ** Counting the deletions that succeed *)

Lemma user_refreshes_quiet (w : World) (self : CalendarCleanup)
    (user_data : gmap string value) :
  deleted_ids (user_refreshes w self user_data) = []
  /\ sleeps (user_refreshes w self user_data) = 0.
Proof.
  destruct (get_google_credentials_exact w user_data self) as (_ & [-> | [rt ->]] & _);
    split; reflexivity.
Qed.

Lemma deleted_ids_none (t : list effect) :
  (forall e, In e t -> is_delete e = false) -> deleted_ids t = [].
Proof.
  induction t as [|e t IH]; intros Hnd; [reflexivity|].
  simpl. rewrite IH by (intros x Hx; apply Hnd; now right).
  specialize (Hnd e (or_introl eq_refl)). now destruct e.
Qed.

Lemma deleted_ids_paced (w : World) (self : CalendarCleanup) (n : nat) (users : list row) :
  forall i,
  deleted_ids (paced n i (map (fun u => user_calls w self false (user_dict_of u)) users)) =
  List.concat (map (fun u => map f_id (user_events w self (user_dict_of u))) users).
Proof.
  induction users as [|u rest IH]; intros i; [reflexivity|].
  cbn [map paced List.concat]. unfold user_calls at 1.
  rewrite !deleted_ids_app, deleted_ids_deletes, deleted_ids_pacing, IH.
  now rewrite (proj1 (user_refreshes_quiet w self (user_dict_of u))).
Qed.

Lemma count_deleted_all (deleting : string -> result unit) (events : list found_event) :
  count_deleted deleting events <= List.length events
  /\ (count_deleted deleting events = List.length events <->
      forall e, In e events -> deleting (f_id e) = Ok tt).
Proof.
  unfold count_deleted. induction events as [|ev l [IHle IH]]; simpl.
  - split; [lia|]. split; [intros _ e [] | reflexivity].
  - destruct (deleting (f_id ev)) as [[]|x] eqn:Hd; simpl.
    + split; [lia|]. split.
      * intros Hlen e [<- | He]; [assumption|]. apply IH; [lia | assumption].
      * intros Hall. f_equal. apply IH. intros e He. apply Hall. now right.
    + split; [lia|]. split; [lia|].
      intros Hall. specialize (Hall ev (or_introl eq_refl)). congruence.
Qed.

Lemma user_deleted_all (w : World) (self : CalendarCleanup) (user_data : gmap string value) :
  user_deleted w self user_data <= List.length (user_events w self user_data)
  /\ (user_deleted w self user_data = List.length (user_events w self user_data) <->
      forall svc e, user_service w self user_data = Some svc ->
        In e (find_perm_events w svc) -> events_delete svc (f_id e) = Ok tt).
Proof.
  unfold user_deleted, user_events.
  destruct (user_service w self user_data) as [svc|].
  - destruct (count_deleted_all (events_delete svc) (find_perm_events w svc)) as [Hle Hiff].
    split; [assumption|]. rewrite Hiff. split.
    + intros H svc' e [= <-]. apply H.
    + intros H e. now apply H.
  - split; [reflexivity|]. split; [discriminate | reflexivity].
Qed.

Lemma list_sum_pointwise {A} (f g : A -> nat) (l : list A) :
  (forall x, In x l -> f x <= g x) ->
  list_sum (map f l) <= list_sum (map g l)
  /\ (list_sum (map f l) = list_sum (map g l) <-> forall x, In x l -> f x = g x).
Proof.
  induction l as [|a l IH]; intros Hle; simpl.
  - split; [lia|]. split; [intros _ x [] | reflexivity].
  - destruct IH as [IHle IH]; [intros x Hx; apply Hle; now right|].
    pose proof (Hle a (or_introl eq_refl)) as Ha.
    split; [lia|]. split.
    + intros Hsum x [<- | Hx]; [lia|]. apply IH; [lia | assumption].
    + intros Hall. rewrite (Hall a (or_introl eq_refl)). f_equal.
      apply IH. intros x Hx. apply Hall. now right.
Qed.

(** C4, amended.  Over the same world, a dry run and a live run return
    the same result and exit status and end with the same users processed,
    successful and failed, the same error list and the same events found
    ([parity]); the dry run issues no deletion request and its deleted
    counter counts every event found.  The live run issues, user after
    user, one deletion request per event found for the user, and its
    deleted counter is the number of these requests that succeeded.  So
    the live counter is at most the dry-run counter, and the two are equal
    iff none of the requests issued fails. *)
Theorem C4_dry_run_live_parity (w : World) :
  let dry := run w (__init__ true) in
  let live := run w (__init__ false) in
  let self := initialized w in
  let users := queried_users w in
  snd dry = snd live
  /\ main w true = main w false
  /\ parity w (fst dry) (fst live)
  /\ deleted_ids (trace (fst dry)) = []
  /\ deleted_ids (trace (fst live)) =
     List.concat (map (fun u => map f_id (user_events w self (user_dict_of u))) users)
  /\ total_events_deleted (stats (fst live)) =
     list_sum (map (fun u => user_deleted w self (user_dict_of u)) users)
  /\ total_events_deleted (stats (fst dry)) =
     list_sum (map (fun u => List.length (user_events w self (user_dict_of u))) users)
  /\ (total_events_deleted (stats (fst live)) = total_events_deleted (stats (fst dry)) <->
      no_deletion_fails w self users).
Proof.
  intros dry live self users.
  destruct (run_parity w) as (Hres & Hmain & P). fold dry in Hres, P. fold live in Hres, P.
  do 3 (split; [assumption|]).
  pose proof (run_state w true) as (Hd & Hcd & Hdd & Hsd & Htd).
  pose proof (run_state w false) as (Hl & Hcl & Hdl & Hsl & Htl).
  cbv zeta in Hd, Hcd, Hdd, Hsd, Htd, Hl, Hcl, Hdl, Hsl, Htl.
  fold dry in Hd. fold live in Hl. fold users in Hd, Hl. fold self in Hcd, Hcl.
  remember (fst (initialize w (__init__ true))) as sd eqn:Esd.
  remember (fst (initialize w (__init__ false))) as sl eqn:Esl.
  pose proof (run_users_exact w (List.length users) self users 0 sd Hcd)
    as (_ & _ & _ & _ & _ & Hded).
  pose proof (run_users_exact w (List.length users) self users 0 sl Hcl)
    as (Htrl & _ & _ & _ & _ & Hdel).
  cbv zeta in Hded, Htrl, Hdel.
  rewrite <- Hd in Hded. rewrite <- Hl in Htrl, Hdel.
  rewrite Hdd, Hsd in Hded. rewrite Hdl, Hsl in Hdel. rewrite Hdl, Htl in Htrl.
  simpl in Hded, Hdel, Htrl.
  assert (deleted_ids (trace (fst dry)) = []) as Hnone.
  { apply deleted_ids_none. exact (par_no_delete _ _ _ P). }
  split; [assumption|].
  split; [rewrite Htrl; apply deleted_ids_paced|].
  split; [assumption|]. split; [assumption|].
  rewrite Hdel, Hded.
  destruct (list_sum_pointwise (fun u => user_deleted w self (user_dict_of u))
              (fun u => List.length (user_events w self (user_dict_of u))) users)
    as [_ Hiff]; [intros u _; apply user_deleted_all|].
  rewrite Hiff. unfold no_deletion_fails. split.
  - intros Hall u svc e Hu Hsvc He.
    apply (proj1 (proj2 (user_deleted_all w self (user_dict_of u)) ) (Hall u Hu) svc e Hsvc He).
  - intros Hall u Hu. apply user_deleted_all. intros svc e Hsvc He.
    apply (Hall u svc e Hu Hsvc He).
Qed.

(** When the deletion goes through, both modes end with one deleted;
    when the provider refuses it, the live counter stays at zero. *)
Lemma C4_witness :
  total_events_deleted (stats (fst (run one_user_world (__init__ false)))) =
  total_events_deleted (stats (fst (run one_user_world (__init__ true)))).
Proof.
  destruct (C4_dry_run_live_parity one_user_world) as (_ & _ & _ & _ & _ & _ & _ & H).
  apply H.
  intros u svc e Hu Hsvc He.
  destruct Hu as [<- | []]. injection Hsvc as <-. reflexivity.
Defined.

(** ** The requests for one user *)

(** For one user, [process_user] issues what credential resolution
    issues (nothing, or one refresh) and then, in a live run only, one
    deletion request per event found for the user, in the order found.  The
    events found are those of the service built from the credentials that
    [get_google_credentials] resolved for this user; their ids are pairwise
    distinct, and each is the entry of a raw event that a search of that
    service returned and whose summary starts with one of the patterns.
    Their number is added to [total_events_found]. *)
Theorem process_user_requests (w : World) (user_data : gmap string value)
    (self : CalendarCleanup) :
  let events := user_events w self user_data in
  trace (fst (process_user w user_data self)) =
    (trace self ++ user_refreshes w self user_data ++
     (if dry_run self then [] else map EffDelete (map f_id events)))%list
  /\ (user_refreshes w self user_data = [] \/
      exists rt, user_refreshes w self user_data = [EffRefresh rt])
  /\ NoDup (map f_id events)
  /\ (forall e, In e events ->
        exists creds svc r,
          snd (get_google_credentials w user_data self) = Ok (Some creds) /\
          build w creds = Ok svc /\
          events = find_perm_events w svc /\
          discovered_target w svc r /\ e = entry_of r)
  /\ total_events_found (stats (fst (process_user w user_data self))) =
     total_events_found (stats self) + List.length events.
Proof.
  intros events. rewrite process_user_exact. cbn [fst trace stats emit_all with_stats].
  split; [reflexivity|].
  split; [apply get_google_credentials_exact|].
  assert (events = [] \/
          exists creds svc,
            snd (get_google_credentials w user_data self) = Ok (Some creds) /\
            build w creds = Ok svc /\ events = find_perm_events w svc) as Hev.
  { unfold events, user_events, user_service.
    destruct (snd (get_google_credentials w user_data self)) as [[creds|]|e];
      try (now left).
    destruct (build w creds) as [svc|e] eqn:Hb; [|now left].
    right. exists creds, svc. auto. }
  split; [|split; [|reflexivity]].
  - destruct Hev as [-> | (creds & svc & _ & _ & ->)]; [constructor|].
    apply find_perm_events_invariant.
  - intros e He. destruct Hev as [Hnil | (creds & svc & Hgc & Hb & Hsvc)].
    + rewrite Hnil in He. destruct He.
    + rewrite Hsvc in He.
      destruct (proj2 (find_perm_events_invariant w svc) e He) as (r & Ht & ->).
      exists creds, svc, r. auto.
Qed.

(** ** The whole run, user by user *)

(** The error list at the end of a run is, in the order of the rows,
    one entry for each row for which [process_user] returned [False] or
    raised (the entry carries the row's email and either
    "credential/auth failure" or the text of the exception), and no entry
    for a row for which it returned [True]; [users_failed] is the number of
    entries, and the rows without an entry are the successful ones. *)
Theorem error_list_matches_failed_users (w : World) (dry_run_flag : bool) :
  let start := fst (initialize w (__init__ dry_run_flag)) in
  let final := fst (run w (__init__ dry_run_flag)) in
  let users := queried_users w in
  errors (stats final) =
    flat_map (fun u =>
                match snd (process_user w (user_dict_of u) start) with
                | Ok true => []
                | Ok false => [error_entry u "credential/auth failure"]
                | Raise e => [error_entry u (exn_str e)]
                end) users
  /\ users_failed (stats final) = List.length (errors (stats final))
  /\ users_successful (stats final) + users_failed (stats final) = List.length users.
Proof.
  intros start final users.
  pose proof (run_state w dry_run_flag) as (Hrun & _ & _ & Hstats & _).
  cbv zeta in Hrun, Hstats. fold start in Hrun, Hstats. fold final in Hrun.
  fold users in Hrun.
  pose proof (run_users_exact w (List.length users) start users 0 start
                ltac:(repeat split)) as (_ & He & Hf & Hs & _).
  cbv zeta in He, Hf, Hs. rewrite <- Hrun in He, Hf, Hs.
  rewrite Hstats in He, Hf, Hs. simpl in He, Hf, Hs.
  assert (failure_entries w start users =
          flat_map (fun u =>
                      match snd (process_user w (user_dict_of u) start) with
                      | Ok true => []
                      | Ok false => [error_entry u "credential/auth failure"]
                      | Raise e => [error_entry u (exn_str e)]
                      end) users) as Hentries.
  { unfold failure_entries. apply flat_map_ext. intros u.
    rewrite process_user_exact. cbn [snd]. unfold user_failure.
    now destruct (user_result w start (user_dict_of u)) as [[|]|e]. }
  rewrite <- Hentries, He. split; [reflexivity|]. split; lia.
Qed.

(** The trace of a run is the calls issued for the first row, a pause
    of one second, the calls issued for the second row, a pause of one
    second, and so on, with no pause after the calls of the last row; the
    calls issued for a row are those of [process_user] and contain no
    pause. *)
Theorem pacing_between_users (w : World) (dry_run_flag : bool) :
  let start := fst (initialize w (__init__ dry_run_flag)) in
  let calls := fun u : row =>
    drop (List.length (trace start)) (trace (fst (process_user w (user_dict_of u) start))) in
  trace (fst (run w (__init__ dry_run_flag))) =
    interleave [EffSleep 1] (map calls (queried_users w))
  /\ forall u, sleeps (calls u) = 0.
Proof.
  intros start calls.
  pose proof (run_state w dry_run_flag) as (Hrun & _ & Hdry & _ & Htrace).
  cbv zeta in Hrun, Hdry, Htrace. fold start in Hrun, Hdry, Htrace.
  assert (forall u, calls u = user_calls w start dry_run_flag (user_dict_of u)) as Hcalls.
  { intros u. unfold calls. rewrite process_user_exact.
    cbn [fst trace emit_all with_stats]. rewrite Hdry. apply drop_app_length. }
  split.
  - pose proof (run_users_exact w (List.length (queried_users w)) start (queried_users w)
                  0 start ltac:(repeat split)) as (Ht & _).
    cbv zeta in Ht. rewrite <- Hrun in Ht. rewrite Ht, Htrace, Hdry. simpl.
    rewrite paced_interleave by (rewrite length_map; reflexivity).
    f_equal. apply map_ext. intros u. symmetry. apply Hcalls.
  - intros u. rewrite Hcalls. unfold user_calls.
    rewrite sleeps_app, (proj2 (user_refreshes_quiet w start (user_dict_of u))).
    destruct dry_run_flag; [reflexivity | apply sleeps_deletes].
Qed.

(** In a live run the deletion requests issued are, row after row and
    in the order found, one request for each event found for the row and
    no other; the events found for a row have pairwise distinct ids, so no
    event of a row is asked twice; [total_events_found] is the number of
    events found over all rows, hence the number of requests. *)
Theorem live_run_requests_every_found_event (w : World) :
  let self := initialized w in
  let live := fst (run w (__init__ false)) in
  let users := queried_users w in
  deleted_ids (trace live) =
    List.concat (map (fun u => map f_id (user_events w self (user_dict_of u))) users)
  /\ (forall u, NoDup (map f_id (user_events w self (user_dict_of u))))
  /\ (forall u, total_events_found (stats (fst (process_user w (user_dict_of u) self))) =
                total_events_found (stats self) +
                List.length (user_events w self (user_dict_of u)))
  /\ total_events_found (stats live) =
     list_sum (map (fun u => List.length (user_events w self (user_dict_of u))) users)
  /\ total_events_found (stats live) = List.length (deleted_ids (trace live)).
Proof.
  intros self live users.
  pose proof (run_state w false) as (Hrun & _ & Hdry & Hstats & Htrace).
  cbv zeta in Hrun, Hdry, Hstats, Htrace.
  change (fst (initialize w (__init__ false))) with self in Hrun, Hdry, Hstats, Htrace.
  fold live in Hrun. fold users in Hrun.
  pose proof (run_users_exact w (List.length users) self users 0 self
                ltac:(repeat split)) as (Ht & _ & _ & _ & Hfo & _).
  cbv zeta in Ht, Hfo. rewrite <- Hrun in Ht, Hfo.
  rewrite Hdry, Htrace in Ht. rewrite Hstats in Hfo. simpl in Ht, Hfo.
  assert (deleted_ids (trace live) =
          List.concat (map (fun u => map f_id (user_events w self (user_dict_of u))) users))
    as Hids by (rewrite Ht; apply deleted_ids_paced).
  split; [assumption|]. split; [|split; [|split; [assumption|]]].
  - intros u. unfold user_events.
    destruct (user_service w self (user_dict_of u)) as [svc|]; [|constructor].
    apply find_perm_events_invariant.
  - intros u. rewrite process_user_exact. reflexivity.
  - rewrite Hfo, Hids. clear. induction users as [|u l IH]; [reflexivity|].
    simpl. rewrite length_app, length_map, <- IH. reflexivity.
Qed.
